(** * roporter/stats: the request-metrics collector of [stats.go]

    A shallow embedding of [stats.go] and the proofs of its specification.

    Conventions of the embedding.
    - Go's [int], [int64] and [time.Duration] are 64-bit two's-complement
      integers: a [Z] that every arithmetic operation wraps ([GoInt]).
    - Go's [float64] is IEEE 754 binary64: the Standard Library's
      [spec_float] at precision 53 and maximal exponent 1024 ([F64]).
    - [map[string]T] is a [gmap string T]; reading a missing key yields the
      zero value of [T], as in Go ([geti], [getf]).
    - [time.Time] is the number of nanoseconds since the zero [Time]
      ([GoTime]); the readings of [time.Now()] and [os.Getpid()] are
      arguments of the operation that takes them.
    - The lock [mu] makes every method one atomic step on the store; a run of
      the program is a list of such steps ([event], [run]). *)

From Stdlib Require Import ZArith Lia QArith Qround Qabs.
From Stdlib Require Import Floats.SpecFloat.
From stdpp Require Import gmap strings pretty list fin_maps.

Local Open Scope Z_scope.

(** ** Machine integers *)

Module GoInt.

Definition min_int : Z := - 2 ^ 63.
Definition max_int : Z := 2 ^ 63 - 1.

(** Two's-complement wrap-around into [min_int .. max_int]. *)
Definition wrap (x : Z) : Z := (x + 2 ^ 63) mod 2 ^ 64 - 2 ^ 63.

Definition add (a b : Z) : Z := wrap (a + b).
Definition sub (a b : Z) : Z := wrap (a - b).
Definition mul (a b : Z) : Z := wrap (a * b).
(** [a / b]: the quotient truncated toward zero.  Every divisor in
    [stats.go] is a positive constant or is guarded by [> 0]. *)
Definition quo (a b : Z) : Z := wrap (Z.quot a b).
(** [a % b]: the remainder, with the sign of [a]. *)
Definition rem (a b : Z) : Z := wrap (Z.rem a b).

Definition in_range (x : Z) : Prop := min_int <= x <= max_int.

End GoInt.

(** ** Binary64 floating point *)

Module F64.

Definition prec : Z := 53.
Definition emax : Z := 1024.

Definition zero : spec_float := S754_zero false.

(** [float64(z)] for an integer [z]: round to nearest, ties to even. *)
Definition of_int (z : Z) : spec_float := binary_normalize prec emax z 0 false.

Definition add : spec_float -> spec_float -> spec_float := SFadd prec emax.
Definition mul : spec_float -> spec_float -> spec_float := SFmul prec emax.
Definition div : spec_float -> spec_float -> spec_float := SFdiv prec emax.
Definition ltb : spec_float -> spec_float -> bool := SFltb.
Definition eqb : spec_float -> spec_float -> bool := SFeqb.

(** The constant [0.5]. *)
Definition half : spec_float := binary_normalize prec emax 1 (-1) false.

(** [int(f)]: the fraction is discarded (truncation toward zero).  When the
    value does not fit an [int] (also for NaN and the infinities) Go leaves
    the result to the implementation; amd64 yields [min_int]. *)
Definition to_int (f : spec_float) : Z :=
  match f with
  | S754_zero _ => 0
  | S754_finite s m e =>
      let z := cond_Zopp s (Z.shiftl (Zpos m) e) in
      if (GoInt.min_int <=? z) && (z <=? GoInt.max_int) then z
      else GoInt.min_int
  | S754_infinity _ | S754_nan => GoInt.min_int
  end.

(** The rational number a finite float stands for. *)
Definition to_Q (f : spec_float) : option Q :=
  match f with
  | S754_zero _ => Some 0%Q
  | S754_finite s m e =>
      let a := (if 0 <=? e then inject_Z (Zpos m * 2 ^ e)
                else (Zpos m # Z.to_pos (2 ^ (- e))))%Q in
      Some (if s then Qopp a else a)
  | S754_infinity _ | S754_nan => None
  end.

End F64.

(** ** Package [time] *)

Module GoTime.

(** Nanoseconds per second: the constant [time.Second]. *)
Definition Second : Z := 1000000000.

(** [t.Sub(u)]: the difference as a [Duration], saturated at the least and
    the greatest [Duration]. *)
Definition Sub (t u : Z) : Z :=
  Z.max GoInt.min_int (Z.min GoInt.max_int (t - u)).

(** [t.Add(d)].  A [Time] counts its seconds in an [int64] of its own; the
    sums of durations taken here stay far inside it. *)
Definition Add (t d : Z) : Z := t + d.

(** [time.Time{}], the zero [Time]. *)
Definition zero : Z := 0.

(** [time.Since(t)], read at clock time [now]. *)
Definition Since (now t : Z) : Z := Sub now t.

(** [t.Unix()]: seconds since January 1, 1970 UTC. *)
Definition Unix (t : Z) : Z := t / Second - 62135596800.

(** [d.Seconds()]:
    [sec := d / Second; nsec := d % Second;
     return float64(sec) + float64(nsec)/1e9]. *)
Definition Seconds (d : Z) : spec_float :=
  let sec := GoInt.quo d Second in
  let nsec := GoInt.rem d Second in
  F64.add (F64.of_int sec) (F64.div (F64.of_int nsec) (F64.of_int 1000000000)).

End GoTime.

(** ** The duration decomposition and the rounding helper *)

(** [SecondsToDate], lines 229-238. *)
Definition SecondsToDate (seconds2 : spec_float) : Z * Z * Z * Z * Z :=
  let seconds := F64.to_int seconds2 in
  let weeks := GoInt.quo seconds (7*24*60*60) in
  let days := GoInt.sub (GoInt.quo seconds (24*60*60)) (GoInt.mul 7 weeks) in
  let hours :=
    GoInt.sub (GoInt.sub (GoInt.quo seconds (60*60)) (GoInt.mul (7*24) weeks))
              (GoInt.mul 24 days) in
  let minutes :=
    GoInt.sub (GoInt.sub (GoInt.sub (GoInt.quo seconds 60)
                                    (GoInt.mul (7*24*60) weeks))
                         (GoInt.mul (24*60) days))
              (GoInt.mul 60 hours) in
  let seconds3 :=
    GoInt.sub (GoInt.sub (GoInt.sub (GoInt.sub seconds
                                               (GoInt.mul (7*24*60*60) weeks))
                                    (GoInt.mul (24*60*60) days))
                         (GoInt.mul (60*60) hours))
              (GoInt.mul 60 minutes) in
  (weeks, days, hours, minutes, seconds3).

(** [Round], lines 240-246.  The loop [for i:=0; i<decimals; i++] runs
    [decimals] times, and not at all when [decimals <= 0]. *)
Definition Round (v : spec_float) (decimals : Z) : spec_float :=
  let pow := Nat.iter (Z.to_nat decimals)
               (fun pow => F64.mul pow (F64.of_int 10)) (F64.of_int 1) in
  F64.div (F64.of_int (F64.to_int (F64.add (F64.mul v pow) F64.half))) pow.

(** What rounding half away from zero to [n] decimal digits means, on the
    rationals: the nearest multiple of [10^-n], a tie going to the one of
    larger magnitude. *)
Definition round_half_away (q : Q) (n : nat) : Q :=
  let p := inject_Z (10 ^ Z.of_nat n) in
  let k := Qfloor (Qabs q * p + (1 # 2)) in
  ((if Qle_bool 0 q then inject_Z k else inject_Z (- k)) / p)%Q.

(** [Round v n] rounds [v] half away from zero to [n] decimal digits: the
    statement of the specification, for a finite [v]. *)
Definition rounds_half_away (v : spec_float) (n : nat) : Prop :=
  forall q, F64.to_Q v = Some q ->
  exists r, F64.to_Q (Round v (Z.of_nat n)) = Some r
            /\ (r == round_half_away q n)%Q.

(** ** The store *)

Record TimeSpan := mkTimeSpan {
  Weeks : Z;
  Days : Z;
  Hours : Z;
  Minutes : Z;
  Seconds : Z
}.

(** The struct [ResponseURL]; its first field, also named [ResponseURL] in
    the source, is [ResponseURL'] here. *)
Record ResponseURL := mkResponseURL {
  ResponseURL' : string;
  RepsonseMethod : string;
  ResponseDuration : Z;
  ResponseTime : Z;
  ResponseSeconds : spec_float;
  ResponseSince : TimeSpan
}.

(** The struct [Stats] without its lock.  [MaxResponseTime] and its
    [ResponseSince] point to records that [New] allocates once and that are
    updated in place from then on; the store holds their contents. *)
Record Stats := mkStats {
  Uptime : Z;
  Pid : Z;
  ResponseCounts : gmap string Z;
  TotalResponseCounts : gmap string Z;
  URLRequestLatency : gmap string Z;
  URLRequestCounts : gmap string Z;
  TotalResponseTime : Z;
  RequestTypeCounts : gmap string Z;
  UserAgentCounts : gmap string Z;
  URLHighestResponse : gmap string spec_float;
  URLLowestResponse : gmap string spec_float;
  MaxResponseTime : ResponseURL
}.

(** [m[k]] on a [map[string]int]: zero when [k] is missing. *)
Definition geti (m : gmap string Z) (k : string) : Z := default 0 (m !! k).

(** [m[k]] on a [map[string]float64]: zero when [k] is missing. *)
Definition getf (m : gmap string spec_float) (k : string) : spec_float :=
  default F64.zero (m !! k).

(** [m[k]++] *)
Definition incr (m : gmap string Z) (k : string) : gmap string Z :=
  <[k := GoInt.add (geti m k) 1]> m.

(** [m[k] += d] *)
Definition addto (m : gmap string Z) (k : string) (d : Z) : gmap string Z :=
  <[k := GoInt.add (geti m k) d]> m.

(** [New], lines 45-70, with the readings of [time.Now()] and [os.Getpid()].
    The goroutine it starts shows up in a run as the [EvReset] events. *)
Definition New (now pid : Z) : Stats :=
  {| Uptime := now;
     Pid := pid;
     ResponseCounts := ∅;
     TotalResponseCounts := ∅;
     URLRequestCounts := ∅;
     URLRequestLatency := ∅;
     TotalResponseTime := GoTime.zero;
     RequestTypeCounts := ∅;
     UserAgentCounts := ∅;
     URLHighestResponse := ∅;
     URLLowestResponse := ∅;
     MaxResponseTime :=
       {| ResponseURL' := ""; RepsonseMethod := ""; ResponseDuration := 0;
          ResponseTime := GoTime.zero; ResponseSeconds := F64.zero;
          ResponseSince := mkTimeSpan 0 0 0 0 0 |} |}.

(** [ResetResponseCounts], lines 72-76. *)
Definition ResetResponseCounts (mw : Stats) : Stats :=
  {| Uptime := Uptime mw;
     Pid := Pid mw;
     ResponseCounts := ∅;
     TotalResponseCounts := TotalResponseCounts mw;
     URLRequestLatency := URLRequestLatency mw;
     URLRequestCounts := URLRequestCounts mw;
     TotalResponseTime := TotalResponseTime mw;
     RequestTypeCounts := RequestTypeCounts mw;
     UserAgentCounts := UserAgentCounts mw;
     URLHighestResponse := URLHighestResponse mw;
     URLLowestResponse := URLLowestResponse mw;
     MaxResponseTime := MaxResponseTime mw |}.

(** [EndWithStatus], lines 106-135.  [end_] is the clock read on entry and
    [now] the one read when the peak record is replaced. *)
Definition EndWithStatus (end_ now : Z) (mw : Stats)
    (start : Z) (status : Z) (url method useragent : string) : Stats :=
  let responseTime := GoTime.Sub end_ start in
  let statusCode : string := pretty status in
  let peak := MaxResponseTime mw in
  let peak' :=
    if ResponseDuration peak <? responseTime then
      {| ResponseDuration := responseTime;
         ResponseURL' := url;
         ResponseTime := now;
         RepsonseMethod := method;
         ResponseSeconds := ResponseSeconds peak;
         ResponseSince := ResponseSince peak |}
    else peak in
  let hi := URLHighestResponse mw in
  let hi' :=
    if F64.ltb (getf hi url) (F64.of_int responseTime)
    then <[url := F64.of_int responseTime]> hi else hi in
  let lo := URLLowestResponse mw in
  let lo1 :=
    if F64.eqb (getf lo url) (F64.of_int 0)
    then <[url := F64.of_int responseTime]> lo else lo in
  let lo2 :=
    if F64.ltb (F64.of_int responseTime) (getf lo1 url)
    then <[url := F64.of_int responseTime]> lo1 else lo1 in
  {| Uptime := Uptime mw;
     Pid := Pid mw;
     ResponseCounts := incr (ResponseCounts mw) statusCode;
     TotalResponseCounts := incr (TotalResponseCounts mw) statusCode;
     TotalResponseTime := GoTime.Add (TotalResponseTime mw) responseTime;
     URLRequestCounts := incr (URLRequestCounts mw) url;
     URLRequestLatency := addto (URLRequestLatency mw) url responseTime;
     RequestTypeCounts := incr (RequestTypeCounts mw) method;
     UserAgentCounts := incr (UserAgentCounts mw) useragent;
     MaxResponseTime := peak';
     URLHighestResponse := hi';
     URLLowestResponse := lo2 |}.

(** The sum a [for _, v := range m { acc += v }] loop computes.  Go ranges
    over a map in no fixed order; wrapping addition is commutative and
    associative, so every order gives this value ([range_sum_insert]). *)
Definition range_sum (m : gmap string Z) : Z :=
  map_fold (fun _ v acc => GoInt.add acc v) 0 m.

Module data.

(** The struct [data] Data returns.  Its maps and its [MaxResponseTime] are
    the store's own; the record holds their contents at the time of the
    call. *)
Record data := mk {
  Pid : Z;
  UpTime : string;
  UpTimeSec : spec_float;
  Time : string;
  TimeUnix : Z;
  StatusCodeCount : gmap string Z;
  TotalStatusCodeCount : gmap string Z;
  Count : Z;
  TotalCount : Z;
  TotalResponseTime : string;
  TotalResponseTimeSec : spec_float;
  AverageResponseTime : string;
  AverageResponseTimeSec : spec_float;
  URLRequestCounts : gmap string Z;
  RequestTypeCounts : gmap string Z;
  UserAgentCounts : gmap string Z;
  URLRequestLatency : gmap string Z;
  URLHighestResponse : gmap string spec_float;
  URLLowestResponse : gmap string spec_float;
  MaxResponseTime : ResponseURL
}.

End data.

Section Exporter.

(** The formatting methods [Duration.String] and [Time.String] of package
    [time]; nothing below depends on what they print. *)
Variable Duration_String : Z -> string.
Variable Time_String : Z -> string.

(** The local [averageResponseTime] of [Data], lines 184-188. *)
Definition averageResponseTime (totalResponseTime totalCount : Z) : Z :=
  if 0 <? totalCount then GoInt.quo totalResponseTime totalCount else 0.

(** [Data], lines 164-227: the report and the store it leaves.  [now] is the
    clock read on entry, [now2] the one [time.Since] reads. *)
Definition Data (now now2 : Z) (mw : Stats) : data.data * Stats :=
  let uptime := GoTime.Sub now (Uptime mw) in
  let count := range_sum (ResponseCounts mw) in
  let totalCount := range_sum (TotalResponseCounts mw) in
  let totalResponseTime := GoTime.Sub (TotalResponseTime mw) GoTime.zero in
  let averageResponseTime := averageResponseTime totalResponseTime totalCount in
  let peak := MaxResponseTime mw in
  let duration := GoTime.Since now2 (ResponseTime peak) in
  let '(weeks, days, hours, minutes, seconds) :=
    SecondsToDate (Round (GoTime.Seconds duration) 0) in
  let peak' :=
    {| ResponseURL' := ResponseURL' peak;
       RepsonseMethod := RepsonseMethod peak;
       ResponseDuration := ResponseDuration peak;
       ResponseTime := ResponseTime peak;
       ResponseSeconds := GoTime.Seconds (ResponseDuration peak);
       ResponseSince :=
         {| Weeks := weeks; Days := days; Hours := hours;
            Minutes := minutes; Seconds := seconds |} |} in
  let mw' :=
    {| Uptime := Uptime mw;
       Pid := Pid mw;
       ResponseCounts := ResponseCounts mw;
       TotalResponseCounts := TotalResponseCounts mw;
       URLRequestLatency := URLRequestLatency mw;
       URLRequestCounts := URLRequestCounts mw;
       TotalResponseTime := TotalResponseTime mw;
       RequestTypeCounts := RequestTypeCounts mw;
       UserAgentCounts := UserAgentCounts mw;
       URLHighestResponse := URLHighestResponse mw;
       URLLowestResponse := URLLowestResponse mw;
       MaxResponseTime := peak' |} in
  ({| data.Pid := Pid mw;
      data.UpTime := Duration_String uptime;
      data.UpTimeSec := GoTime.Seconds uptime;
      data.Time := Time_String now;
      data.TimeUnix := GoTime.Unix now;
      data.StatusCodeCount := ResponseCounts mw;
      data.TotalStatusCodeCount := TotalResponseCounts mw;
      data.Count := count;
      data.TotalCount := totalCount;
      data.TotalResponseTime := Duration_String totalResponseTime;
      data.TotalResponseTimeSec := GoTime.Seconds totalResponseTime;
      data.AverageResponseTime := Duration_String averageResponseTime;
      data.AverageResponseTimeSec := GoTime.Seconds averageResponseTime;
      data.URLRequestCounts := URLRequestCounts mw;
      data.RequestTypeCounts := RequestTypeCounts mw;
      data.UserAgentCounts := UserAgentCounts mw;
      data.URLRequestLatency := URLRequestLatency mw;
      data.URLHighestResponse := URLHighestResponse mw;
      data.URLLowestResponse := URLLowestResponse mw;
      data.MaxResponseTime := peak' |}, mw').

End Exporter.

(** ** Runs *)

(** One atomic step on the store: a request recorded by [EndWithStatus], a
    tick of the reset goroutine, or an export by [Data] (whose effect on the
    store does not depend on the formatters, [Data_store_formatters]). *)
Inductive event :=
| EvEnd (end_ now start status : Z) (url method useragent : string)
| EvReset
| EvData (now now2 : Z).

Definition step (mw : Stats) (ev : event) : Stats :=
  match ev with
  | EvEnd end_ now start status url method useragent =>
      EndWithStatus end_ now mw start status url method useragent
  | EvReset => ResetResponseCounts mw
  | EvData now now2 => snd (Data (fun _ => "") (fun _ => "") now now2 mw)
  end.

Definition run (mw : Stats) (evs : list event) : Stats := fold_left step evs mw.

(** The elapsed durations of the requests a run records, oldest first. *)
Fixpoint elapsed_of (evs : list event) : list Z :=
  match evs with
  | [] => []
  | EvEnd end_ _ start _ _ _ _ :: evs => GoTime.Sub end_ start :: elapsed_of evs
  | _ :: evs => elapsed_of evs
  end.

(** The elapsed durations of the requests a run records for URL [u]. *)
Fixpoint elapsed_of_url (u : string) (evs : list event) : list Z :=
  match evs with
  | [] => []
  | EvEnd end_ _ start _ url _ _ :: evs =>
      if decide (url = u) then GoTime.Sub end_ start :: elapsed_of_url u evs
      else elapsed_of_url u evs
  | _ :: evs => elapsed_of_url u evs
  end.

(** The number of requests a run records. *)
Definition recorded (evs : list event) : nat := length (elapsed_of evs).

(** The exact sum of the values of a counter map, as an integer. *)
Definition values_sum (m : gmap string Z) : Z :=
  map_fold (fun _ v acc => acc + v) 0 m.

(** The peak record [EndWithStatus] writes for a request that beats the
    current peak [old]: the four fields it assigns, over the fields [old]
    keeps. *)
Definition peak_for (old : ResponseURL) (url method : string)
    (responseTime now : Z) : ResponseURL :=
  {| ResponseURL' := url;
     RepsonseMethod := method;
     ResponseDuration := responseTime;
     ResponseTime := now;
     ResponseSeconds := ResponseSeconds old;
     ResponseSince := ResponseSince old |}.

(** The invariant of a counter map that has been incremented [n] times:
    no entry is negative and the entries sum to [n]. *)
Definition counts (m : gmap string Z) (n : Z) : Prop :=
  map_Forall (fun _ v => 0 <= v) m /\ values_sum m = n.

(** ** Vocabulary for statements about runs *)

(** The sum of a list of durations, as an integer. *)
Definition Zsum (l : list Z) : Z := foldr Z.add 0 l.

(** The number of requests a run records whose status, url, method and user
    agent satisfy [p]. *)
Fixpoint requests_where (p : Z -> string -> string -> string -> bool)
    (evs : list event) : nat :=
  match evs with
  | [] => O
  | EvEnd _ _ _ status url method useragent :: evs =>
      if p status url method useragent then S (requests_where p evs)
      else requests_where p evs
  | _ :: evs => requests_where p evs
  end.

(** The events of a run that follow its last reset (all of them when there is
    none), given the events [acc] that precede the run and follow the last
    reset before it. *)
Definition since_last_reset (acc evs : list event) : list event :=
  fold_left (fun acc ev => match ev with EvReset => [] | _ => acc ++ [ev] end)
            evs acc.

(** A run without its resets, and without its exports. *)
Fixpoint without_resets (evs : list event) : list event :=
  match evs with
  | [] => []
  | EvReset :: evs => without_resets evs
  | ev :: evs => ev :: without_resets evs
  end.

Fixpoint without_exports (evs : list event) : list event :=
  match evs with
  | [] => []
  | EvData _ _ :: evs => without_exports evs
  | ev :: evs => ev :: without_exports evs
  end.

(** Two stores that differ at most in the window counters. *)
Definition same_but_window (a b : Stats) : Prop :=
  Uptime a = Uptime b
  /\ Pid a = Pid b
  /\ TotalResponseCounts a = TotalResponseCounts b
  /\ URLRequestLatency a = URLRequestLatency b
  /\ URLRequestCounts a = URLRequestCounts b
  /\ TotalResponseTime a = TotalResponseTime b
  /\ RequestTypeCounts a = RequestTypeCounts b
  /\ UserAgentCounts a = UserAgentCounts b
  /\ URLHighestResponse a = URLHighestResponse b
  /\ URLLowestResponse a = URLLowestResponse b
  /\ MaxResponseTime a = MaxResponseTime b.

(** Two stores that differ at most in the two derived fields of the peak
    record, [ResponseSeconds] and [ResponseSince]. *)
Definition same_but_derived (a b : Stats) : Prop :=
  Uptime a = Uptime b
  /\ Pid a = Pid b
  /\ ResponseCounts a = ResponseCounts b
  /\ TotalResponseCounts a = TotalResponseCounts b
  /\ URLRequestLatency a = URLRequestLatency b
  /\ URLRequestCounts a = URLRequestCounts b
  /\ TotalResponseTime a = TotalResponseTime b
  /\ RequestTypeCounts a = RequestTypeCounts b
  /\ UserAgentCounts a = UserAgentCounts b
  /\ URLHighestResponse a = URLHighestResponse b
  /\ URLLowestResponse a = URLLowestResponse b
  /\ ResponseURL' (MaxResponseTime a) = ResponseURL' (MaxResponseTime b)
  /\ RepsonseMethod (MaxResponseTime a) = RepsonseMethod (MaxResponseTime b)
  /\ ResponseDuration (MaxResponseTime a) = ResponseDuration (MaxResponseTime b)
  /\ ResponseTime (MaxResponseTime a) = ResponseTime (MaxResponseTime b).

(** * Proofs *)

(** ** Machine integers: no wrap inside the range *)

Lemma wrap_id x : GoInt.in_range x -> GoInt.wrap x = x.
Proof.
  unfold GoInt.in_range, GoInt.wrap, GoInt.min_int, GoInt.max_int. intros H.
  rewrite Z.mod_small by lia. lia.
Qed.

Lemma wrap_range x : GoInt.in_range (GoInt.wrap x).
Proof.
  unfold GoInt.in_range, GoInt.wrap, GoInt.min_int, GoInt.max_int.
  pose proof (Z.mod_pos_bound (x + 2 ^ 63) (2 ^ 64) ltac:(lia)). lia.
Qed.

Lemma to_int_range f : GoInt.in_range (F64.to_int f).
Proof.
  unfold GoInt.in_range.
  destruct f as [s|s| |s m e]; simpl; try (unfold GoInt.min_int, GoInt.max_int; lia).
  destruct (_ && _) eqn:E.
  - apply andb_prop in E. lia.
  - unfold GoInt.min_int, GoInt.max_int; lia.
Qed.

Local Ltac in_range_solve :=
  unfold GoInt.in_range, GoInt.min_int, GoInt.max_int in *;
  Z.quot_rem_to_equations; lia.

(** Remove the wraps of an expression from the inside out. *)
Local Ltac unwrap :=
  unfold GoInt.quo, GoInt.sub, GoInt.mul, GoInt.add;
  repeat match goal with
         | |- context [GoInt.wrap ?x] =>
             lazymatch x with
             | context [GoInt.wrap _] => fail
             | _ => rewrite (wrap_id x) by in_range_solve
             end
         end.

Lemma SecondsToDate_eq (seconds2 : spec_float) :
  let s := F64.to_int seconds2 in
  0 <= s ->
  SecondsToDate seconds2 =
    (s ÷ 604800, s ÷ 86400 - 7 * (s ÷ 604800),
     s ÷ 3600 - 24 * (s ÷ 86400), s ÷ 60 - 60 * (s ÷ 3600), s - 60 * (s ÷ 60)).
Proof.
  intros s Hs. unfold SecondsToDate. fold s. pose proof (to_int_range seconds2) as Hr. fold s in Hr.
  clearbody s.
  unfold SecondsToDate. cbv zeta.
  change (7*24*60*60) with 604800. change (24*60*60) with 86400.
  change (60*60) with 3600. change (7*24*60) with 10080. change (7*24) with 168.
  change (24*60) with 1440.
  assert (Hw : GoInt.quo s 604800 = s ÷ 604800) by (now unwrap).
  rewrite Hw.
  assert (Hd : GoInt.sub (GoInt.quo s 86400) (GoInt.mul 7 (s ÷ 604800))
               = s ÷ 86400 - 7 * (s ÷ 604800)) by (now unwrap).
  rewrite Hd.
  assert (Hh : GoInt.sub (GoInt.sub (GoInt.quo s 3600) (GoInt.mul 168 (s ÷ 604800)))
                 (GoInt.mul 24 (s ÷ 86400 - 7 * (s ÷ 604800)))
               = s ÷ 3600 - 24 * (s ÷ 86400)).
  { unwrap. lia. }
  rewrite Hh.
  assert (Hm : GoInt.sub (GoInt.sub (GoInt.sub (GoInt.quo s 60)
                   (GoInt.mul 10080 (s ÷ 604800)))
                   (GoInt.mul 1440 (s ÷ 86400 - 7 * (s ÷ 604800))))
                 (GoInt.mul 60 (s ÷ 3600 - 24 * (s ÷ 86400)))
               = s ÷ 60 - 60 * (s ÷ 3600)).
  { unwrap. lia. }
  rewrite Hm.
  assert (Hs3 : GoInt.sub (GoInt.sub (GoInt.sub (GoInt.sub s
                   (GoInt.mul 604800 (s ÷ 604800)))
                   (GoInt.mul 86400 (s ÷ 86400 - 7 * (s ÷ 604800))))
                   (GoInt.mul 3600 (s ÷ 3600 - 24 * (s ÷ 86400))))
                 (GoInt.mul 60 (s ÷ 60 - 60 * (s ÷ 3600)))
               = s - 60 * (s ÷ 60)).
  { unwrap. lia. }
  rewrite Hs3. reflexivity.
Qed.

(** A float that stands for an integer of the [int] range converts to that
    integer: [int(seconds2)] loses nothing on an integral input. *)
Lemma to_int_exact (f : spec_float) (q : Q) (s : Z) :
  F64.to_Q f = Some q -> (q == inject_Z s)%Q -> GoInt.in_range s ->
  F64.to_int f = s.
Proof.
  intros Hq Heq Hr. destruct f as [sg|sg| |sg m e]; simpl in Hq; try discriminate.
  - injection Hq as <-. simpl. unfold Qeq in Heq. simpl in Heq. lia.
  - injection Hq as <-. unfold F64.to_int.
    assert (Hv : cond_Zopp sg (Z.shiftl (Z.pos m) e) = s).
    { destruct (0 <=? e) eqn:He.
      - apply Z.leb_le in He. rewrite Z.shiftl_mul_pow2 by lia.
        destruct sg; unfold Qeq in Heq; simpl in Heq; simpl; lia.
      - apply Z.leb_gt in He.
        assert (Hp : 0 < 2 ^ (- e)) by (apply Z.pow_pos_nonneg; lia).
        rewrite <- (Z.opp_involutive e) at 1.
        rewrite Z.shiftl_opp_r, Z.shiftr_div_pow2 by lia.
        destruct sg; unfold Qeq in Heq; simpl in Heq;
          rewrite Z2Pos.id in Heq by lia; simpl.
        + assert (Hm : Z.pos m = (- s) * 2 ^ (- e)) by lia.
          rewrite Hm, Z.div_mul by lia. lia.
        + assert (Hm : Z.pos m = s * 2 ^ (- e)) by lia.
          rewrite Hm, Z.div_mul by lia. lia. }
    cbv zeta. rewrite Hv.
    unfold GoInt.in_range in Hr.
    destruct (GoInt.min_int <=? s) eqn:E1; [| apply Z.leb_gt in E1; lia].
    destruct (s <=? GoInt.max_int) eqn:E2; [| apply Z.leb_gt in E2; lia].
    reflexivity.
Qed.

(** C1. For a non-negative number of seconds [s] (the [int] that
    [SecondsToDate] computes on), the result [(weeks, days, hours, minutes,
    seconds_out)] recomposes to [s]:
    [weeks*604800 + days*86400 + hours*3600 + minutes*60 + seconds_out = s],
    with days in [0,6], hours in [0,23], minutes in [0,59] and seconds_out in
    [0,59]. *)
Theorem SecondsToDate_decomposition (seconds2 : spec_float) (s : Z) :
  F64.to_int seconds2 = s -> 0 <= s ->
  let '(weeks, days, hours, minutes, seconds_out) := SecondsToDate seconds2 in
  weeks * 604800 + days * 86400 + hours * 3600 + minutes * 60 + seconds_out = s
  /\ 0 <= weeks
  /\ 0 <= days <= 6
  /\ 0 <= hours <= 23
  /\ 0 <= minutes <= 59
  /\ 0 <= seconds_out <= 59.
Proof.
  intros Hs Hpos. subst s.
  rewrite SecondsToDate_eq by assumption.
  generalize dependent (F64.to_int seconds2). intros s Hpos.
  Z.quot_rem_to_equations. lia.
Qed.

Lemma SecondsToDate_decomposition_witness :
  SecondsToDate (F64.of_int 1000000) = (1, 4, 13, 46, 40)
  /\ 1 * 604800 + 4 * 86400 + 13 * 3600 + 46 * 60 + 40 = 1000000.
Proof.
  pose proof (SecondsToDate_decomposition (F64.of_int 1000000) 1000000
                ltac:(vm_compute; reflexivity) ltac:(lia)) as H.
  split; [vm_compute; reflexivity |].
  change (SecondsToDate (F64.of_int 1000000)) with (1, 4, 13, 46, 40) in H.
  exact (proj1 H).
Defined.

(** ** Sums over counter maps *)

Lemma wrap_add_l a b : GoInt.wrap (GoInt.wrap a + b) = GoInt.wrap (a + b).
Proof.
  unfold GoInt.wrap. f_equal.
  replace ((a + 2 ^ 63) mod 2 ^ 64 - 2 ^ 63 + b + 2 ^ 63)
    with ((a + 2 ^ 63) mod 2 ^ 64 + b) by lia.
  rewrite Z.add_mod_idemp_l by lia. f_equal. lia.
Qed.

Lemma wrap_add_r a b : GoInt.wrap (a + GoInt.wrap b) = GoInt.wrap (a + b).
Proof. rewrite Z.add_comm, wrap_add_l. f_equal. lia. Qed.

Lemma add_swap y a b :
  GoInt.add (GoInt.add y a) b = GoInt.add (GoInt.add y b) a.
Proof. unfold GoInt.add. rewrite !wrap_add_l. f_equal. lia. Qed.

(** The order in which [range] visits the keys does not matter. *)
Lemma range_sum_insert (m : gmap string Z) k v :
  m !! k = None -> range_sum (<[k := v]> m) = GoInt.add (range_sum m) v.
Proof.
  intros Hk. unfold range_sum.
  rewrite map_fold_insert_L; [reflexivity | | assumption].
  intros. apply add_swap.
Qed.

Lemma range_sum_delete (m : gmap string Z) k v :
  m !! k = Some v -> range_sum m = GoInt.add (range_sum (delete k m)) v.
Proof.
  intros Hk. unfold range_sum.
  rewrite (map_fold_delete_L _ _ k v m); [reflexivity | | assumption].
  intros. apply add_swap.
Qed.

Lemma range_sum_incr (m : gmap string Z) k :
  range_sum (incr m k) = GoInt.add (range_sum m) 1.
Proof.
  unfold incr, geti. destruct (m !! k) as [v|] eqn:Hk; simpl.
  - rewrite <- insert_delete_eq, range_sum_insert by apply lookup_delete_eq.
    rewrite (range_sum_delete m k v Hk). unfold GoInt.add.
    rewrite wrap_add_r, wrap_add_l. f_equal. lia.
  - rewrite range_sum_insert by assumption. unfold GoInt.add.
    rewrite wrap_add_r. reflexivity.
Qed.

Lemma values_sum_insert (m : gmap string Z) k v :
  m !! k = None -> values_sum (<[k := v]> m) = values_sum m + v.
Proof.
  intros Hk. unfold values_sum.
  rewrite map_fold_insert_L; [reflexivity | | assumption].
  intros. lia.
Qed.

Lemma values_sum_delete (m : gmap string Z) k v :
  m !! k = Some v -> values_sum m = values_sum (delete k m) + v.
Proof.
  intros Hk. unfold values_sum.
  rewrite (map_fold_delete_L _ _ k v m); [reflexivity | | assumption].
  intros. lia.
Qed.

Lemma values_sum_nonneg (m : gmap string Z) :
  map_Forall (fun _ v => 0 <= v) m -> 0 <= values_sum m.
Proof.
  unfold values_sum.
  apply (map_fold_weak_ind
           (fun r (m : gmap string Z) => map_Forall (fun _ v => 0 <= v) m -> 0 <= r)).
  - intros _. lia.
  - intros i x m' r Hi IH Hall.
    apply map_Forall_insert in Hall as [Hx Hall]; [| assumption].
    specialize (IH Hall). lia.
Qed.

Lemma counts_empty : counts ∅ 0.
Proof. split; [apply map_Forall_empty | reflexivity]. Qed.

Lemma counts_incr (m : gmap string Z) n k :
  counts m n -> n < GoInt.max_int -> counts (incr m k) (n + 1).
Proof.
  intros [Hall Hsum] Hn. unfold incr, geti.
  destruct (m !! k) as [v|] eqn:Hk; simpl.
  - pose proof (values_sum_delete m k v Hk) as Hd.
    pose proof (values_sum_nonneg (delete k m) (map_Forall_delete _ _ _ Hall)) as Hdn.
    pose proof (map_Forall_lookup_1 _ _ _ _ Hall Hk) as Hv. simpl in Hv.
    assert (Hw : GoInt.add v 1 = v + 1).
    { unfold GoInt.add. apply wrap_id.
      unfold GoInt.in_range, GoInt.min_int, GoInt.max_int in *. lia. }
    rewrite Hw. split.
    + apply map_Forall_insert_2; [lia | assumption].
    + rewrite <- insert_delete_eq, values_sum_insert by apply lookup_delete_eq. lia.
  - split.
    + apply map_Forall_insert_2; [vm_compute; discriminate | assumption].
    + rewrite values_sum_insert by assumption.
      change (GoInt.add 0 1) with 1. lia.
Qed.

(** The cumulative status counters along a run: resets and exports leave
    them alone, every recorded request adds one. *)
Lemma run_counts evs : forall mw n,
  counts (TotalResponseCounts mw) n ->
  n + Z.of_nat (recorded evs) <= GoInt.max_int ->
  counts (TotalResponseCounts (run mw evs)) (n + Z.of_nat (recorded evs)).
Proof.
  induction evs as [|ev evs IH]; intros mw n Hc Hn.
  - simpl. replace (n + Z.of_nat (recorded [])) with n by (unfold recorded; simpl; lia).
    assumption.
  - destruct ev as [end_ now start status url method useragent| |now now2].
    + change (run mw (EvEnd end_ now start status url method useragent :: evs))
        with (run (EndWithStatus end_ now mw start status url method useragent) evs).
      assert (Hrec : Z.of_nat (recorded (EvEnd end_ now start status url method useragent :: evs))
                     = 1 + Z.of_nat (recorded evs)).
      { unfold recorded. simpl. lia. }
      rewrite Hrec in *.
      replace (n + (1 + Z.of_nat (recorded evs))) with ((n + 1) + Z.of_nat (recorded evs)) by lia.
      apply IH; [| lia].
      simpl. apply counts_incr; [assumption | lia].
    + change (run mw (EvReset :: evs)) with (run (ResetResponseCounts mw) evs).
      change (recorded (EvReset :: evs)) with (recorded evs) in *.
      apply IH; assumption.
    + change (run mw (EvData now now2 :: evs))
        with (run (snd (Data (fun _ => "") (fun _ => "") now now2 mw)) evs).
      change (recorded (EvData now now2 :: evs)) with (recorded evs) in *.
      apply IH; [| assumption].
      unfold Data. destruct (SecondsToDate _) as [[[[w d] h] mi] se]. exact Hc.
Qed.

Lemma run_range_sum evs : forall mw,
  range_sum (TotalResponseCounts (run mw evs))
  = GoInt.wrap (range_sum (TotalResponseCounts mw) + Z.of_nat (recorded evs)).
Proof.
  induction evs as [|ev evs IH]; intros mw.
  - unfold recorded. simpl. rewrite Z.add_0_r.
    unfold range_sum.
    apply (map_fold_weak_ind
             (fun r (_ : gmap string Z) => r = GoInt.wrap r)).
    + reflexivity.
    + intros. unfold GoInt.add. symmetry. apply wrap_id, wrap_range.
  - destruct ev as [end_ now start status url method useragent| |now now2].
    + change (run mw (EvEnd end_ now start status url method useragent :: evs))
        with (run (EndWithStatus end_ now mw start status url method useragent) evs).
      rewrite IH. simpl TotalResponseCounts. rewrite range_sum_incr.
      unfold GoInt.add. rewrite wrap_add_l. f_equal. unfold recorded. simpl. lia.
    + change (run mw (EvReset :: evs)) with (run (ResetResponseCounts mw) evs).
      rewrite IH. reflexivity.
    + change (run mw (EvData now now2 :: evs))
        with (run (snd (Data (fun _ => "") (fun _ => "") now now2 mw)) evs).
      rewrite IH. unfold Data. destruct (SecondsToDate _) as [[[[w d] h] mi] se].
      reflexivity.
Qed.

(** C2. After a run that records [N] requests (any statuses, URLs, methods
    and agents, resets and exports interleaved at will, [N] within the range
    of an [int]), the exported report has the values of
    [TotalStatusCodeCount] sum to [N] and has [TotalCount = N]. *)
Theorem total_count_is_number_of_requests
    (Duration_String Time_String : Z -> string) (now0 pid now now2 : Z)
    (evs : list event) :
  Z.of_nat (recorded evs) <= GoInt.max_int ->
  let d := fst (Data Duration_String Time_String now now2 (run (New now0 pid) evs)) in
  values_sum (data.TotalStatusCodeCount d) = Z.of_nat (recorded evs)
  /\ data.TotalCount d = Z.of_nat (recorded evs).
Proof.
  intros HN d. subst d. unfold Data.
  destruct (SecondsToDate _) as [[[[w dd] h] mi] se]. simpl.
  split.
  - pose proof (run_counts evs (New now0 pid) 0 counts_empty ltac:(lia)) as [_ H].
    rewrite H. lia.
  - rewrite run_range_sum. simpl. change (range_sum ∅) with 0.
    apply wrap_id. unfold GoInt.in_range, GoInt.min_int, GoInt.max_int in *. lia.
Qed.

Lemma total_count_is_number_of_requests_witness :
  let evs := [EvEnd 10 10 0 200 "/a" "GET" "curl"; EvReset;
              EvEnd 25 25 20 404 "/b" "POST" "curl"; EvData 30 30;
              EvEnd 40 40 31 200 "/a" "GET" "wget"] in
  let d := fst (Data (fun _ => "") (fun _ => "") 50 50 (run (New 0 1) evs)) in
  values_sum (data.TotalStatusCodeCount d) = 3 /\ data.TotalCount d = 3.
Proof.
  intros evs.
  exact (total_count_is_number_of_requests (fun _ => "") (fun _ => "") 0 1 50 50 evs
           ltac:(vm_compute; discriminate)).
Defined.

(** ** The peak record *)

Lemma Data_store_formatters ds ts ds' ts' now now2 mw :
  snd (Data ds ts now now2 mw) = snd (Data ds' ts' now now2 mw).
Proof.
  unfold Data. destruct (SecondsToDate _) as [[[[w d] h] mi] se]. reflexivity.
Qed.

Lemma Data_store_peak ds ts now now2 mw :
  let p := MaxResponseTime (snd (Data ds ts now now2 mw)) in
  ResponseURL' p = ResponseURL' (MaxResponseTime mw)
  /\ RepsonseMethod p = RepsonseMethod (MaxResponseTime mw)
  /\ ResponseDuration p = ResponseDuration (MaxResponseTime mw)
  /\ ResponseTime p = ResponseTime (MaxResponseTime mw).
Proof.
  unfold Data. destruct (SecondsToDate _) as [[[[w d] h] mi] se]. simpl. auto.
Qed.

Lemma EndWithStatus_peak end_ now mw start status url method ua :
  MaxResponseTime (EndWithStatus end_ now mw start status url method ua)
  = if ResponseDuration (MaxResponseTime mw) <? GoTime.Sub end_ start
    then peak_for (MaxResponseTime mw) url method (GoTime.Sub end_ start) now
    else MaxResponseTime mw.
Proof. reflexivity. Qed.

Lemma EndWithStatus_peak_duration end_ now mw start status url method ua :
  ResponseDuration (MaxResponseTime
                      (EndWithStatus end_ now mw start status url method ua))
  = Z.max (ResponseDuration (MaxResponseTime mw)) (GoTime.Sub end_ start).
Proof.
  rewrite EndWithStatus_peak. destruct (_ <? _) eqn:E.
  - apply Z.ltb_lt in E. unfold peak_for. cbn [ResponseDuration]. lia.
  - apply Z.ltb_ge in E. lia.
Qed.

Lemma run_peak_duration evs : forall mw,
  ResponseDuration (MaxResponseTime (run mw evs))
  = fold_left Z.max (elapsed_of evs) (ResponseDuration (MaxResponseTime mw)).
Proof.
  induction evs as [|ev evs IH]; intros mw; [reflexivity |].
  destruct ev as [end_ now start status url method useragent| |now now2].
  - change (run mw (EvEnd end_ now start status url method useragent :: evs))
      with (run (EndWithStatus end_ now mw start status url method useragent) evs).
    rewrite IH, EndWithStatus_peak_duration. reflexivity.
  - change (run mw (EvReset :: evs)) with (run (ResetResponseCounts mw) evs).
    rewrite IH. reflexivity.
  - change (run mw (EvData now now2 :: evs))
      with (run (snd (Data (fun _ => "") (fun _ => "") now now2 mw)) evs).
    rewrite IH.
    destruct (Data_store_peak (fun _ => "") (fun _ => "") now now2 mw)
      as (_ & _ & -> & _).
    reflexivity.
Qed.

Lemma fold_left_max_bound (l : list Z) : forall a,
  a <= fold_left Z.max l a /\ forall e, e ∈ l -> e <= fold_left Z.max l a.
Proof.
  induction l as [|x l IH]; intros a; simpl.
  - split; [lia |]. intros e He. inversion He.
  - destruct (IH (Z.max a x)) as [H1 H2]. split; [lia |].
    intros e He. apply elem_of_cons in He as [-> | He]; [lia | auto].
Qed.

Lemma fold_left_max_attained (l : list Z) : forall a,
  fold_left Z.max l a = a \/ fold_left Z.max l a ∈ l.
Proof.
  induction l as [|x l IH]; intros a; simpl; [left; reflexivity |].
  destruct (IH (Z.max a x)) as [H | H].
  - rewrite H. destruct (Z.max_spec a x) as [[_ ->] | [_ ->]].
    + right. apply list_elem_of_here.
    + left. reflexivity.
  - right. apply list_elem_of_further, H.
Qed.

(** C3. After any run, started from the initial zero record, in which every
    elapsed duration is non-negative, the peak duration is the maximum of the
    elapsed durations recorded so far: no recorded duration exceeds it and,
    once a request has been recorded, it is one of them.  Recording a request
    whose elapsed duration is at most the current peak leaves the peak record
    (its url, method and duration with it) unchanged. *)
Theorem peak_is_maximum (now0 pid : Z) (evs : list event) :
  Forall (fun e => 0 <= e) (elapsed_of evs) ->
  let mw := run (New now0 pid) evs in
  let peak := MaxResponseTime mw in
  (forall e, e ∈ elapsed_of evs -> e <= ResponseDuration peak)
  /\ (elapsed_of evs <> [] -> ResponseDuration peak ∈ elapsed_of evs)
  /\ (elapsed_of evs = [] -> ResponseDuration peak = 0)
  /\ forall end_ now start status url method useragent,
       GoTime.Sub end_ start <= ResponseDuration peak ->
       MaxResponseTime (EndWithStatus end_ now mw start status url method useragent)
       = peak.
Proof.
  intros Hpos mw peak.
  assert (Hp : ResponseDuration peak = fold_left Z.max (elapsed_of evs) 0)
    by (subst peak mw; apply run_peak_duration).
  destruct (fold_left_max_bound (elapsed_of evs) 0) as [H0 Hub].
  repeat split.
  - rewrite Hp. exact Hub.
  - intros Hne. rewrite Hp.
    destruct (fold_left_max_attained (elapsed_of evs) 0) as [H | H]; [| exact H].
    destruct (elapsed_of evs) as [|x l] eqn:El; [congruence |].
    assert (Hx : x = 0).
    { pose proof (Hub x (list_elem_of_here _ _)) as Hle.
      apply Forall_cons in Hpos as [Hx _]. lia. }
    rewrite H, Hx. apply list_elem_of_here.
  - intros He. rewrite Hp, He. reflexivity.
  - intros end_ now start status url method useragent Hle.
    rewrite EndWithStatus_peak. fold peak.
    destruct (_ <? _) eqn:E; [apply Z.ltb_lt in E; lia | reflexivity].
Qed.

Lemma peak_is_maximum_witness :
  let evs := [EvEnd 10 11 0 200 "/a" "GET" "curl";
              EvEnd 70 71 20 200 "/b" "GET" "curl";
              EvEnd 85 86 80 500 "/c" "PUT" "curl"] in
  let peak := MaxResponseTime (run (New 0 1) evs) in
  ResponseDuration peak = 50
  /\ MaxResponseTime (EndWithStatus 100 101 (run (New 0 1) evs) 70 200 "/d" "GET" "curl")
     = peak.
Proof.
  intros evs peak.
  assert (Hpos : Forall (fun e => 0 <= e) (elapsed_of evs)).
  { subst evs. simpl. repeat constructor; vm_compute; discriminate. }
  destruct (peak_is_maximum 0 1 evs Hpos) as (_ & _ & _ & Hkeep).
  split; [vm_compute; reflexivity |].
  apply Hkeep. vm_compute. discriminate.
Defined.

(** ** The order of binary64 *)

Lemma SFltb_irrefl (x : spec_float) : SFltb x x = false.
Proof.
  unfold SFltb, SFcompare.
  destruct x as [s|s| |s m e]; try destruct s; try reflexivity;
    rewrite Z.compare_refl;
    change (Pos.compare_cont Eq m m) with (Pos.compare m m);
    rewrite Pos.compare_refl; reflexivity.
Qed.

(** The comparison of two finite floats of one sign: by exponent, then by
    mantissa. *)
Lemma lex_compare_Lt e1 m1 e2 m2 :
  match e1 ?= e2 with
  | Lt => Lt | Gt => Gt | Eq => Pos.compare_cont Eq m1 m2
  end = Lt
  <-> e1 < e2 \/ (e1 = e2 /\ (m1 < m2)%positive).
Proof.
  change (Pos.compare_cont Eq m1 m2) with (Pos.compare m1 m2).
  destruct (Z.compare_spec e1 e2); destruct (Pos.compare_spec m1 m2);
    split; intros; try discriminate; try lia; auto.
Qed.

Lemma lex_compare_Gt e1 m1 e2 m2 :
  match e1 ?= e2 with
  | Lt => Gt | Gt => Lt | Eq => CompOpp (Pos.compare_cont Eq m1 m2)
  end = Lt
  <-> e2 < e1 \/ (e1 = e2 /\ (m2 < m1)%positive).
Proof.
  change (Pos.compare_cont Eq m1 m2) with (Pos.compare m1 m2).
  destruct (Z.compare_spec e1 e2); destruct (Pos.compare_spec m1 m2);
    simpl; split; intros; try discriminate; try lia; auto.
Qed.

Lemma SFltb_finite s1 m1 e1 s2 m2 e2 :
  SFltb (S754_finite s1 m1 e1) (S754_finite s2 m2 e2) = true
  <-> match s1, s2 with
      | true, false => True
      | false, true => False
      | false, false => e1 < e2 \/ (e1 = e2 /\ (m1 < m2)%positive)
      | true, true => e2 < e1 \/ (e1 = e2 /\ (m2 < m1)%positive)
      end.
Proof.
  unfold SFltb, SFcompare. destruct s1, s2.
  - rewrite <- lex_compare_Gt.
    destruct (match e1 ?= e2 with Lt => Gt | Gt => Lt | Eq => _ end);
      split; congruence.
  - split; auto.
  - split; [discriminate | tauto].
  - rewrite <- lex_compare_Lt.
    destruct (match e1 ?= e2 with Lt => Lt | Gt => Gt | Eq => _ end);
      split; congruence.
Qed.

Lemma SFltb_trans (x y z : spec_float) :
  SFltb x y = true -> SFltb y z = true -> SFltb x z = true.
Proof.
  destruct x as [sx|sx| |sx mx ex], y as [sy|sy| |sy my ey],
           z as [sz|sz| |sz mz ez];
    intros H1 H2;
    try (rewrite SFltb_finite in H1); try (rewrite SFltb_finite in H2);
    try (rewrite SFltb_finite);
    repeat match goal with s : bool |- _ => destruct s end;
    cbv [SFltb SFcompare] in *; try congruence; try tauto; lia.
Qed.

(** ** The per-URL extrema *)

(** C4. One update with URL [url] and elapsed duration [e] (as a [float64]):
    when [URLLowestResponse] has no entry for [url], or the entry is zero, the
    entry becomes [e]; otherwise, when [e] is strictly less than the entry,
    the entry becomes [e]; in every other case the map is unchanged. *)
Theorem lowest_response_update
    (end_ now : Z) (mw : Stats) (start status : Z) (url method useragent : string) :
  let e := F64.of_int (GoTime.Sub end_ start) in
  let lo := URLLowestResponse mw in
  let lo' :=
    URLLowestResponse (EndWithStatus end_ now mw start status url method useragent) in
  match lo !! url with
  | None => lo' = <[url := e]> lo
  | Some cur =>
      if F64.eqb cur F64.zero then lo' = <[url := e]> lo
      else if F64.ltb e cur then lo' = <[url := e]> lo
      else lo' = lo
  end.
Proof.
  intros e lo lo'. subst lo'. unfold EndWithStatus. cbn [URLLowestResponse].
  fold lo. fold e. change (F64.of_int 0) with F64.zero.
  assert (Hset : (if F64.ltb e (getf (<[url := e]> lo) url)
                  then <[url := e]> (<[url := e]> lo) else <[url := e]> lo)
                 = <[url := e]> lo).
  { unfold getf. rewrite lookup_insert_eq. simpl.
    unfold F64.ltb. rewrite SFltb_irrefl. reflexivity. }
  destruct (lo !! url) as [cur|] eqn:Hcur.
  - assert (Hg : getf lo url = cur) by (unfold getf; rewrite Hcur; reflexivity).
    rewrite Hg. destruct (F64.eqb cur F64.zero); [exact Hset |].
    rewrite Hg. destruct (F64.ltb e cur); reflexivity.
  - assert (Hg : getf lo url = F64.zero) by (unfold getf; rewrite Hcur; reflexivity).
    rewrite Hg. exact Hset.
Qed.

Lemma EndWithStatus_highest end_ now mw start status url method ua :
  URLHighestResponse (EndWithStatus end_ now mw start status url method ua)
  = if F64.ltb (getf (URLHighestResponse mw) url) (F64.of_int (GoTime.Sub end_ start))
    then <[url := F64.of_int (GoTime.Sub end_ start)]> (URLHighestResponse mw)
    else URLHighestResponse mw.
Proof. reflexivity. Qed.

Lemma Data_store_highest ds ts now now2 mw :
  URLHighestResponse (snd (Data ds ts now now2 mw)) = URLHighestResponse mw.
Proof.
  unfold Data. destruct (SecondsToDate _) as [[[[w d] h] mi] se]. reflexivity.
Qed.

(** Along a run, the entry of [u] bounds every latency recorded for [u] and,
    when present, is one of them; [l] holds the latencies recorded before the
    run starts. *)
Lemma run_highest (u : string) (evs : list event) : forall (mw : Stats) (l : list Z),
  (forall e, e ∈ l ->
             F64.ltb (getf (URLHighestResponse mw) u) (F64.of_int e) = false) ->
  (URLHighestResponse mw !! u = None
   \/ exists e, e ∈ l /\ URLHighestResponse mw !! u = Some (F64.of_int e)) ->
  (forall e, e ∈ l ++ elapsed_of_url u evs ->
             F64.ltb (getf (URLHighestResponse (run mw evs)) u) (F64.of_int e) = false)
  /\ (URLHighestResponse (run mw evs) !! u = None
      \/ exists e, e ∈ l ++ elapsed_of_url u evs
                   /\ URLHighestResponse (run mw evs) !! u = Some (F64.of_int e)).
Proof.
  induction evs as [|ev evs IH]; intros mw l Hub Hin.
  - simpl. rewrite app_nil_r. split; assumption.
  - destruct ev as [end_ now start status url method useragent| |now now2].
    + change (run mw (EvEnd end_ now start status url method useragent :: evs))
        with (run (EndWithStatus end_ now mw start status url method useragent) evs).
      simpl elapsed_of_url. destruct (decide (url = u)) as [-> | Hne].
      * replace (l ++ GoTime.Sub end_ start :: elapsed_of_url u evs)
          with ((l ++ [GoTime.Sub end_ start]) ++ elapsed_of_url u evs)
          by (rewrite <- app_assoc; reflexivity).
        apply IH; rewrite EndWithStatus_highest;
          destruct (F64.ltb (getf (URLHighestResponse mw) u)
                            (F64.of_int (GoTime.Sub end_ start))) eqn:Hlt.
        -- intros e He. unfold getf. rewrite lookup_insert_eq. simpl.
           apply elem_of_app in He as [He | He].
           ++ destruct (F64.ltb (F64.of_int (GoTime.Sub end_ start)) (F64.of_int e))
                eqn:Hlt2; [| reflexivity].
              pose proof (SFltb_trans _ _ _ Hlt Hlt2) as Ht.
              unfold F64.ltb in Hub. rewrite (Hub e He) in Ht. discriminate.
           ++ apply list_elem_of_singleton in He as ->. apply SFltb_irrefl.
        -- intros e He. apply elem_of_app in He as [He | He]; [auto |].
           apply list_elem_of_singleton in He as ->. exact Hlt.
        -- right. exists (GoTime.Sub end_ start). split.
           ++ apply elem_of_app. right. apply list_elem_of_singleton. reflexivity.
           ++ apply lookup_insert_eq.
        -- destruct Hin as [Hn | (e & He & Hs)]; [left; exact Hn |].
           right. exists e. split; [apply elem_of_app; left; exact He | exact Hs].
      * assert (Hsame : URLHighestResponse
                          (EndWithStatus end_ now mw start status url method useragent) !! u
                        = URLHighestResponse mw !! u).
        { rewrite EndWithStatus_highest. destruct (F64.ltb _ _); [| reflexivity].
          apply lookup_insert_ne. exact Hne. }
        apply IH; unfold getf in *; rewrite Hsame; assumption.
    + change (run mw (EvReset :: evs)) with (run (ResetResponseCounts mw) evs).
      apply IH; assumption.
    + change (run mw (EvData now now2 :: evs))
        with (run (snd (Data (fun _ => "") (fun _ => "") now now2 mw)) evs).
      apply IH; rewrite Data_store_highest; assumption.
Qed.




(** ** Replacing the peak record *)

(** C7, as the code has it.  An update whose elapsed duration strictly exceeds
    the peak duration assigns four fields of the peak record: the url, the
    method, the duration (the elapsed one) and the time of observation (the
    clock read at that moment).  The derived fields [ResponseSeconds] and
    [ResponseSince] keep the values they had; only [Data] recomputes them. *)
Theorem peak_replaced_on_larger_duration
    (end_ now : Z) (mw : Stats) (start status : Z) (url method useragent : string) :
  ResponseDuration (MaxResponseTime mw) < GoTime.Sub end_ start ->
  MaxResponseTime (EndWithStatus end_ now mw start status url method useragent)
  = {| ResponseURL' := url;
       RepsonseMethod := method;
       ResponseDuration := GoTime.Sub end_ start;
       ResponseTime := now;
       ResponseSeconds := ResponseSeconds (MaxResponseTime mw);
       ResponseSince := ResponseSince (MaxResponseTime mw) |}.
Proof.
  intros Hlt. rewrite EndWithStatus_peak.
  apply Z.ltb_lt in Hlt. rewrite Hlt. reflexivity.
Qed.

Lemma peak_replaced_on_larger_duration_witness :
  MaxResponseTime (EndWithStatus 30 31 (New 0 1) 10 200 "/a" "GET" "curl")
  = {| ResponseURL' := "/a"; RepsonseMethod := "GET"; ResponseDuration := 20;
       ResponseTime := 31; ResponseSeconds := F64.zero;
       ResponseSince := mkTimeSpan 0 0 0 0 0 |}.
Proof.
  exact (peak_replaced_on_larger_duration 30 31 (New 0 1) 10 200 "/a" "GET" "curl"
           ltac:(vm_compute; reflexivity)).
Defined.

(** C7 as the specification words it fails.  A request of one second is
    recorded and exported ten seconds later; a request of two seconds then
    replaces the peak.  The record names the new request, yet its
    [ResponseSeconds] is still the one second of the old peak, not the two
    seconds of the new one, and its [ResponseSince] is still the ten seconds
    of the export. *)
Lemma peak_derived_fields_not_replaced :
  let s := 1000000000 in
  let mw := run (New 0 1) [EvEnd s s 0 200 "/a" "GET" "curl";
                           EvData (11 * s) (11 * s)] in
  let elapsed := GoTime.Sub (22 * s) (20 * s) in
  let peak' := MaxResponseTime
                 (EndWithStatus (22 * s) (22 * s) mw (20 * s) 200 "/b" "PUT" "curl") in
  ResponseDuration (MaxResponseTime mw) < elapsed
  /\ ResponseURL' peak' = "/b"
  /\ ResponseDuration peak' = 2 * s
  /\ ResponseSeconds peak' = GoTime.Seconds s
  /\ ResponseSeconds peak' <> GoTime.Seconds elapsed
  /\ ResponseSeconds peak' <> F64.zero
  /\ ResponseSince peak' = mkTimeSpan 0 0 0 0 10.
Proof.
  vm_compute. repeat split; congruence.
Qed.

(** ** The window reset *)

(** C8. [ResetResponseCounts] leaves [ResponseCounts] empty, so that an export
    right after it reports [Count = 0], and leaves every other field of the
    store as it was. *)
Theorem reset_clears_window_only
    (Duration_String Time_String : Z -> string) (now now2 : Z) (mw : Stats) :
  let mw' := ResetResponseCounts mw in
  ResponseCounts mw' = ∅
  /\ data.Count (fst (Data Duration_String Time_String now now2 mw')) = 0
  /\ Uptime mw' = Uptime mw
  /\ Pid mw' = Pid mw
  /\ TotalResponseCounts mw' = TotalResponseCounts mw
  /\ URLRequestLatency mw' = URLRequestLatency mw
  /\ URLRequestCounts mw' = URLRequestCounts mw
  /\ TotalResponseTime mw' = TotalResponseTime mw
  /\ RequestTypeCounts mw' = RequestTypeCounts mw
  /\ UserAgentCounts mw' = UserAgentCounts mw
  /\ URLHighestResponse mw' = URLHighestResponse mw
  /\ URLLowestResponse mw' = URLLowestResponse mw
  /\ MaxResponseTime mw' = MaxResponseTime mw.
Proof.
  intros mw'. subst mw'. split; [reflexivity |]. split.
  - unfold Data. destruct (SecondsToDate _) as [[[[w d] h] mi] se].
    reflexivity.
  - repeat split.
Qed.

(** ** The average response time *)

Lemma Sub_range t u : GoInt.in_range (GoTime.Sub t u).
Proof.
  unfold GoTime.Sub, GoInt.in_range, GoInt.min_int, GoInt.max_int. lia.
Qed.

(** The division of [Data] does not wrap: the dividend is a [Duration] and the
    divisor is positive. *)
Lemma averageResponseTime_quot total count :
  GoInt.in_range total -> 0 < count ->
  averageResponseTime total count = total ÷ count.
Proof.
  intros Hr Hc. unfold averageResponseTime.
  apply Z.ltb_lt in Hc as Hc'. rewrite Hc'. unfold GoInt.quo.
  apply wrap_id. unfold GoInt.in_range, GoInt.min_int, GoInt.max_int in *.
  Z.quot_rem_to_equations. nia.
Qed.

Lemma Data_report ds ts now now2 mw :
  let d := fst (Data ds ts now now2 mw) in
  let total := GoTime.Sub (TotalResponseTime mw) GoTime.zero in
  let count := range_sum (TotalResponseCounts mw) in
  data.TotalCount d = count
  /\ data.TotalResponseTime d = ds total
  /\ data.TotalResponseTimeSec d = GoTime.Seconds total
  /\ data.AverageResponseTime d = ds (averageResponseTime total count)
  /\ data.AverageResponseTimeSec d = GoTime.Seconds (averageResponseTime total count).
Proof.
  unfold Data. destruct (SecondsToDate _) as [[[[w dd] h] mi] se].
  simpl. auto.
Qed.

(** C5. In the exported report, with the cumulative response time [total] (the
    duration the report prints as [TotalResponseTime]) and [TotalCount]: when
    [TotalCount > 0] the average response time is [total / TotalCount], Go's
    integer division, printed as a duration and as seconds; when
    [TotalCount = 0] it is zero. *)
Theorem average_response_time
    (Duration_String Time_String : Z -> string) (now now2 : Z) (mw : Stats) :
  let d := fst (Data Duration_String Time_String now now2 mw) in
  let total := GoTime.Sub (TotalResponseTime mw) GoTime.zero in
  data.TotalResponseTime d = Duration_String total
  /\ (0 < data.TotalCount d ->
      data.AverageResponseTime d = Duration_String (total ÷ data.TotalCount d)
      /\ data.AverageResponseTimeSec d = GoTime.Seconds (total ÷ data.TotalCount d))
  /\ (data.TotalCount d = 0 ->
      data.AverageResponseTime d = Duration_String 0
      /\ data.AverageResponseTimeSec d = F64.zero).
Proof.
  intros d total.
  destruct (Data_report Duration_String Time_String now now2 mw)
    as (Hc & Ht & _ & Ha & Has).
  fold d in Hc, Ht, Ha, Has. fold total in Ht, Ha, Has.
  rewrite Ha, Has, Hc. split; [exact Ht |]. split.
  - intros Hpos.
    rewrite averageResponseTime_quot by (apply Sub_range || exact Hpos).
    split; reflexivity.
  - intros Hz. rewrite Hz. split; reflexivity.
Qed.

Lemma average_response_time_witness :
  let evs := [EvEnd 10 10 0 200 "/a" "GET" "curl";
              EvEnd 70 70 20 200 "/a" "GET" "curl";
              EvEnd 85 85 80 404 "/b" "GET" "curl"] in
  let d := fst (Data (fun _ => "") (fun _ => "") 100 100 (run (New 0 1) evs)) in
  data.TotalCount d = 3
  /\ data.AverageResponseTimeSec d = GoTime.Seconds 21
  /\ data.AverageResponseTimeSec
       (fst (Data (fun _ => "") (fun _ => "") 100 100 (New 0 1))) = F64.zero.
Proof.
  intros evs d.
  destruct (average_response_time (fun _ => "") (fun _ => "") 100 100
              (run (New 0 1) evs)) as (_ & Hpos & _).
  destruct (average_response_time (fun _ => "") (fun _ => "") 100 100
              (New 0 1)) as (_ & _ & Hzero).
  split; [vm_compute; reflexivity |]. split.
  - destruct Hpos as [_ Hs]; [vm_compute; reflexivity |].
    etransitivity; [exact Hs |]. vm_compute. reflexivity.
  - apply Hzero. vm_compute. reflexivity.
Defined.

(** C10. Whenever [TotalCount > 0], the exported average is the quotient of
    the cumulative response time in nanoseconds by [TotalCount], truncated
    toward zero; for a non-negative cumulative time [total] it satisfies
    [avg * TotalCount <= total < avg * TotalCount + TotalCount] (and the
    mirrored bounds for a non-positive one). *)
Theorem average_is_truncated_quotient
    (Duration_String Time_String : Z -> string) (now now2 : Z) (mw : Stats) :
  let d := fst (Data Duration_String Time_String now now2 mw) in
  let total := GoTime.Sub (TotalResponseTime mw) GoTime.zero in
  let avg := Z.quot total (data.TotalCount d) in
  0 < data.TotalCount d ->
  data.AverageResponseTime d = Duration_String avg
  /\ data.AverageResponseTimeSec d = GoTime.Seconds avg
  /\ (0 <= total ->
      avg * data.TotalCount d <= total < avg * data.TotalCount d + data.TotalCount d)
  /\ (total <= 0 ->
      avg * data.TotalCount d - data.TotalCount d < total <= avg * data.TotalCount d).
Proof.
  intros d total avg Hpos.
  destruct (Data_report Duration_String Time_String now now2 mw)
    as (Hc & _ & _ & Ha & Has).
  fold d in Hc, Ha, Has. fold total in Ha, Has.
  rewrite Ha, Has. rewrite <- Hc.
  rewrite averageResponseTime_quot by (apply Sub_range || exact Hpos).
  fold avg. split; [reflexivity |]. split; [reflexivity |].
  subst avg. clear Hc Ha Has.
  generalize dependent (data.TotalCount d). intros c Hpos.
  clearbody total. split; intros Ht; Z.quot_rem_to_equations; lia.
Qed.

Lemma average_is_truncated_quotient_witness :
  let evs := [EvEnd 10 10 0 200 "/a" "GET" "curl";
              EvEnd 70 70 20 200 "/a" "GET" "curl";
              EvEnd 85 85 80 404 "/b" "GET" "curl"] in
  let mw := run (New 0 1) evs in
  let d := fst (Data (fun _ => "") (fun _ => "") 100 100 mw) in
  GoTime.Sub (TotalResponseTime mw) GoTime.zero = 65
  /\ data.TotalCount d = 3
  /\ data.AverageResponseTimeSec d = GoTime.Seconds 21
  /\ 21 * 3 <= 65 < 21 * 3 + 3.
Proof.
  intros evs mw d.
  destruct (average_is_truncated_quotient (fun _ => "") (fun _ => "") 100 100 mw
              ltac:(vm_compute; reflexivity)) as (_ & Hs & _).
  split; [vm_compute; reflexivity |]. split; [vm_compute; reflexivity |]. split.
  - etransitivity; [exact Hs |]. vm_compute. reflexivity.
  - lia.
Defined.

(** ** Rounding *)

(** On the non-negative inputs 2.5 and 7 [Round] does round half away from
    zero: 2.5 becomes 3 and 7 stays 7. *)
Example Round_positive :
  rounds_half_away (binary_normalize 53 1024 5 (-1) false) 0
  /\ Round (F64.of_int 7) 0 = F64.of_int 7.
Proof.
  split; [| vm_compute; reflexivity].
  intros q Hq. vm_compute in Hq. injection Hq as <-.
  eexists. split; [vm_compute; reflexivity |]. vm_compute. reflexivity.
Qed.

(** The sum [v * pow + 0.5] is a binary64 sum and is rounded itself: the
    largest float below one half, [(2^53 - 1) * 2^-54], is taken to 1. *)
Example Round_below_half :
  Round (S754_finite false (2 ^ 53 - 1) (-54)) 0 = F64.of_int 1
  /\ ~ rounds_half_away (S754_finite false (2 ^ 53 - 1) (-54)) 0.
Proof.
  split; [vm_compute; reflexivity |].
  intros H. destruct (H _ eq_refl) as (r & Hr & Heq).
  vm_compute in Hr. injection Hr as <-. vm_compute in Heq. discriminate.
Qed.

(** C9 fails on the code for negative inputs.  [Round] truncates
    [v * pow + 0.5] toward zero, which rounds a negative value toward positive
    infinity instead: it takes the integer -1 to 0, where rounding to zero
    digits must leave it, and -2.5 to -2, where half away from zero is -3. *)
Theorem Round_negative_inputs :
  Round (F64.of_int (-1)) 0 = F64.zero
  /\ (round_half_away (-1) 0 == -1)%Q
  /\ ~ rounds_half_away (F64.of_int (-1)) 0
  /\ F64.to_Q (Round (binary_normalize 53 1024 (-5) (-1) false) 0)
     = F64.to_Q (F64.of_int (-2))
  /\ (round_half_away (- (5 # 2)) 0 == -3)%Q
  /\ ~ rounds_half_away (binary_normalize 53 1024 (-5) (-1) false) 0.
Proof.
  split; [vm_compute; reflexivity |].
  split; [vm_compute; reflexivity |].
  split.
  { intros H. destruct (H _ eq_refl) as (r & Hr & Heq).
    vm_compute in Hr. injection Hr as <-. vm_compute in Heq. discriminate. }
  split; [vm_compute; reflexivity |].
  split; [vm_compute; reflexivity |].
  intros H. destruct (H _ eq_refl) as (r & Hr & Heq).
  vm_compute in Hr. injection Hr as <-. vm_compute in Heq. discriminate.
Qed.

(** * Further properties of the code *)

(** ** [SecondsToDate] on every input *)

Lemma SecondsToDate_eq_all (seconds2 : spec_float) :
  let s := F64.to_int seconds2 in
  SecondsToDate seconds2 =
    (s ÷ 604800, s ÷ 86400 - 7 * (s ÷ 604800),
     s ÷ 3600 - 24 * (s ÷ 86400), s ÷ 60 - 60 * (s ÷ 3600), s - 60 * (s ÷ 60)).
Proof.
  intros s. unfold SecondsToDate. fold s.
  pose proof (to_int_range seconds2) as Hr. fold s in Hr. clearbody s.
  cbv zeta.
  change (7*24*60*60) with 604800. change (24*60*60) with 86400.
  change (60*60) with 3600. change (7*24*60) with 10080. change (7*24) with 168.
  change (24*60) with 1440.
  assert (Hw : GoInt.quo s 604800 = s ÷ 604800) by (now unwrap).
  rewrite Hw.
  assert (Hd : GoInt.sub (GoInt.quo s 86400) (GoInt.mul 7 (s ÷ 604800))
               = s ÷ 86400 - 7 * (s ÷ 604800)) by (now unwrap).
  rewrite Hd.
  assert (Hh : GoInt.sub (GoInt.sub (GoInt.quo s 3600) (GoInt.mul 168 (s ÷ 604800)))
                 (GoInt.mul 24 (s ÷ 86400 - 7 * (s ÷ 604800)))
               = s ÷ 3600 - 24 * (s ÷ 86400)).
  { unwrap. lia. }
  rewrite Hh.
  assert (Hm : GoInt.sub (GoInt.sub (GoInt.sub (GoInt.quo s 60)
                   (GoInt.mul 10080 (s ÷ 604800)))
                   (GoInt.mul 1440 (s ÷ 86400 - 7 * (s ÷ 604800))))
                 (GoInt.mul 60 (s ÷ 3600 - 24 * (s ÷ 86400)))
               = s ÷ 60 - 60 * (s ÷ 3600)).
  { unwrap. lia. }
  rewrite Hm.
  assert (Hs3 : GoInt.sub (GoInt.sub (GoInt.sub (GoInt.sub s
                   (GoInt.mul 604800 (s ÷ 604800)))
                   (GoInt.mul 86400 (s ÷ 86400 - 7 * (s ÷ 604800))))
                   (GoInt.mul 3600 (s ÷ 3600 - 24 * (s ÷ 86400))))
                 (GoInt.mul 60 (s ÷ 60 - 60 * (s ÷ 3600)))
               = s - 60 * (s ÷ 60)).
  { unwrap. lia. }
  rewrite Hs3. reflexivity.
Qed.

(** X1. Whatever the argument, negative ones included, no step of
    [SecondsToDate] overflows: the fields recompose to [s = int(seconds2)],
    each field is the truncated quotient of the remainder the larger units
    leave, and for a negative [s] every field is non-positive, within the
    mirrored bounds. *)
Theorem SecondsToDate_any_sign (seconds2 : spec_float) :
  let s := F64.to_int seconds2 in
  let '(weeks, days, hours, minutes, seconds_out) := SecondsToDate seconds2 in
  weeks * 604800 + days * 86400 + hours * 3600 + minutes * 60 + seconds_out = s
  /\ weeks = s ÷ 604800
  /\ days = Z.rem s 604800 ÷ 86400
  /\ hours = Z.rem s 86400 ÷ 3600
  /\ minutes = Z.rem s 3600 ÷ 60
  /\ seconds_out = Z.rem s 60
  /\ (s <= 0 ->
      weeks <= 0 /\ -6 <= days <= 0 /\ -23 <= hours <= 0
      /\ -59 <= minutes <= 0 /\ -59 <= seconds_out <= 0).
Proof.
  intros s. subst s. rewrite SecondsToDate_eq_all.
  generalize (F64.to_int seconds2). intros s.
  repeat apply conj; try intros Hs; repeat apply conj;
    Z.quot_rem_to_equations; lia.
Qed.

Lemma SecondsToDate_any_sign_witness :
  SecondsToDate (F64.of_int (-1000000)) = (-1, -4, -13, -46, -40)
  /\ -1 * 604800 + -4 * 86400 + -13 * 3600 + -46 * 60 + -40 = -1000000.
Proof.
  pose proof (SecondsToDate_any_sign (F64.of_int (-1000000))) as H.
  split; [vm_compute; reflexivity |].
  change (SecondsToDate (F64.of_int (-1000000))) with (-1, -4, -13, -46, -40) in H.
  exact (proj1 H).
Defined.

(** ** The counters *)

(** X2. The [range] loops of [Data] compute the true sum of the counters,
    wrapped to an [int], whatever order Go visits the keys in. *)
Theorem Data_counts_are_wrapped_sums
    (Duration_String Time_String : Z -> string) (now now2 : Z) (mw : Stats) :
  let d := fst (Data Duration_String Time_String now now2 mw) in
  data.Count d = GoInt.wrap (values_sum (ResponseCounts mw))
  /\ data.TotalCount d = GoInt.wrap (values_sum (TotalResponseCounts mw)).
Proof.
  assert (H : forall m : gmap string Z, range_sum m = GoInt.wrap (values_sum m)).
  { intros m. induction m as [|k v m Hk IH] using map_ind.
    - reflexivity.
    - rewrite range_sum_insert, values_sum_insert by assumption.
      rewrite IH. unfold GoInt.add. apply wrap_add_l. }
  intros d. subst d. unfold Data.
  destruct (SecondsToDate _) as [[[[w dd] h] mi] se]. simpl.
  split; apply H.
Qed.

Lemma geti_incr_eq (m : gmap string Z) k : geti (incr m k) k = GoInt.add (geti m k) 1.
Proof. unfold incr, geti at 1. rewrite lookup_insert_eq. reflexivity. Qed.

Lemma geti_incr_ne (m : gmap string Z) k k' : k <> k' -> geti (incr m k) k' = geti m k'.
Proof. intros Hne. unfold incr, geti at 1. rewrite lookup_insert_ne by exact Hne. reflexivity. Qed.

Lemma lookup_incr_is_Some (m : gmap string Z) k k' :
  is_Some (incr m k !! k') <-> k = k' \/ is_Some (m !! k').
Proof.
  unfold incr. destruct (decide (k = k')) as [-> | Hne].
  - rewrite lookup_insert_eq. split; eauto.
  - rewrite lookup_insert_ne by exact Hne. split; [auto | intros [? | ?]; [congruence | assumption]].
Qed.

Section Counter.

(** A counter map of the store that every recorded request increments at the
    key [key status url method useragent], and that nothing else touches. *)
Variable field : Stats -> gmap string Z.
Variable key : Z -> string -> string -> string -> string.
Hypothesis field_End : forall end_ now mw start status url method useragent,
  field (EndWithStatus end_ now mw start status url method useragent)
  = incr (field mw) (key status url method useragent).
Hypothesis field_Reset : forall mw, field (ResetResponseCounts mw) = field mw.
Hypothesis field_Data : forall ds ts now now2 mw,
  field (snd (Data ds ts now now2 mw)) = field mw.

Lemma run_counter (k : string) (evs : list event) : forall mw,
  GoInt.in_range (geti (field mw) k) ->
  geti (field (run mw evs)) k
  = GoInt.wrap (geti (field mw) k
                + Z.of_nat (requests_where
                              (fun st u m a => bool_decide (key st u m a = k)) evs)).
Proof.
  induction evs as [|ev evs IH]; intros mw Hr.
  - simpl. rewrite Z.add_0_r. symmetry. apply wrap_id, Hr.
  - destruct ev as [end_ now start status url method useragent| |now now2].
    + change (run mw (EvEnd end_ now start status url method useragent :: evs))
        with (run (EndWithStatus end_ now mw start status url method useragent) evs).
      simpl requests_where. rewrite IH; rewrite field_End.
      * destruct (decide (key status url method useragent = k)) as [<- | Hne].
        -- rewrite bool_decide_eq_true_2 by reflexivity.
           rewrite geti_incr_eq. unfold GoInt.add. rewrite wrap_add_l.
           f_equal. lia.
        -- rewrite bool_decide_eq_false_2 by exact Hne.
           rewrite geti_incr_ne by exact Hne. reflexivity.
      * destruct (decide (key status url method useragent = k)) as [<- | Hne].
        -- rewrite geti_incr_eq. apply wrap_range.
        -- rewrite geti_incr_ne by exact Hne. exact Hr.
    + change (run mw (EvReset :: evs)) with (run (ResetResponseCounts mw) evs).
      simpl requests_where. rewrite IH; rewrite field_Reset; [reflexivity | exact Hr].
    + change (run mw (EvData now now2 :: evs))
        with (run (snd (Data (fun _ => "") (fun _ => "") now now2 mw)) evs).
      simpl requests_where. rewrite IH; rewrite field_Data; [reflexivity | exact Hr].
Qed.

Lemma run_counter_dom (k : string) (evs : list event) : forall mw,
  is_Some (field (run mw evs) !! k)
  <-> is_Some (field mw !! k)
      \/ requests_where (fun st u m a => bool_decide (key st u m a = k)) evs <> O.
Proof.
  induction evs as [|ev evs IH]; intros mw.
  - simpl. split; [auto | intros [? | ?]; [assumption | congruence]].
  - destruct ev as [end_ now start status url method useragent| |now now2].
    + change (run mw (EvEnd end_ now start status url method useragent :: evs))
        with (run (EndWithStatus end_ now mw start status url method useragent) evs).
      rewrite IH, field_End, lookup_incr_is_Some. simpl requests_where.
      destruct (decide (key status url method useragent = k)) as [<- | Hne].
      * rewrite bool_decide_eq_true_2 by reflexivity. split; intros _; [right; lia | left; left; reflexivity].
      * rewrite bool_decide_eq_false_2 by exact Hne. tauto.
    + change (run mw (EvReset :: evs)) with (run (ResetResponseCounts mw) evs).
      rewrite IH, field_Reset. reflexivity.
    + change (run mw (EvData now now2 :: evs))
        with (run (snd (Data (fun _ => "") (fun _ => "") now now2 mw)) evs).
      rewrite IH, field_Data. reflexivity.
Qed.

End Counter.

Lemma Data_store_same ds ts now now2 mw :
  same_but_derived (snd (Data ds ts now now2 mw)) mw.
Proof.
  unfold Data. destruct (SecondsToDate _) as [[[[w d] h] mi] se].
  unfold same_but_derived. simpl. repeat split.
Qed.

Lemma requests_where_le p evs : (requests_where p evs <= recorded evs)%nat.
Proof.
  unfold recorded. induction evs as [|ev evs IH]; simpl; [lia |].
  destruct ev; simpl; try destruct (p _ _ _ _); simpl; lia.
Qed.

Lemma requests_where_url u evs :
  requests_where (fun _ url _ _ => bool_decide (url = u)) evs
  = length (elapsed_of_url u evs).
Proof.
  induction evs as [|ev evs IH]; simpl; [reflexivity |].
  destruct ev as [end_ now start status url method useragent| |now now2]; auto.
  destruct (decide (url = u)) as [-> | Hne].
  - rewrite bool_decide_eq_true_2 by reflexivity. simpl. congruence.
  - rewrite bool_decide_eq_false_2 by exact Hne. exact IH.
Qed.

Lemma wrap_of_nat (n : nat) :
  Z.of_nat n <= GoInt.max_int -> GoInt.wrap (Z.of_nat n) = Z.of_nat n.
Proof.
  intros H. apply wrap_id.
  unfold GoInt.in_range, GoInt.min_int, GoInt.max_int in *. lia.
Qed.

Lemma in_range_0 : GoInt.in_range 0.
Proof. unfold GoInt.in_range, GoInt.min_int, GoInt.max_int. lia. Qed.

(** X3. After any run, [URLRequestCounts] holds for every URL the number of
    requests recorded for it (wrapped to an [int]; exactly that number when it
    fits), and has an entry for exactly the URLs that were requested. *)
Theorem url_request_counts (now0 pid : Z) (evs : list event) (u : string) :
  let m := URLRequestCounts (run (New now0 pid) evs) in
  let n := length (elapsed_of_url u evs) in
  geti m u = GoInt.wrap (Z.of_nat n)
  /\ (Z.of_nat n <= GoInt.max_int -> geti m u = Z.of_nat n)
  /\ (m !! u = None <-> n = O).
Proof.
  intros m n. subst m n. rewrite <- requests_where_url.
  assert (Hc : geti (URLRequestCounts (run (New now0 pid) evs)) u
               = GoInt.wrap (Z.of_nat (requests_where
                                         (fun _ url _ _ => bool_decide (url = u)) evs))).
  { rewrite (run_counter URLRequestCounts (fun _ url _ _ => url));
      [reflexivity | reflexivity | reflexivity | | apply in_range_0].
    intros. apply Data_store_same. }
  split; [exact Hc |]. split.
  - intros Hn. rewrite Hc. apply wrap_of_nat, Hn.
  - rewrite eq_None_not_Some.
    rewrite (run_counter_dom URLRequestCounts (fun _ url _ _ => url));
      [| reflexivity | reflexivity | intros; apply Data_store_same].
    simpl. rewrite lookup_empty. split.
    + intros Hn. destruct (requests_where _ evs); [reflexivity |].
      exfalso. apply Hn. right. discriminate.
    + intros -> [[x Hx] | Hx]; [discriminate | congruence].
Qed.

Lemma url_request_counts_witness :
  let evs := [EvEnd 10 10 0 200 "/a" "GET" "curl"; EvReset;
              EvEnd 25 25 20 404 "/b" "POST" "curl"; EvData 30 30;
              EvEnd 40 40 31 200 "/a" "GET" "wget"] in
  geti (URLRequestCounts (run (New 0 1) evs)) "/a" = 2
  /\ URLRequestCounts (run (New 0 1) evs) !! "/c" = None.
Proof.
  intros evs.
  destruct (url_request_counts 0 1 evs "/a") as (_ & Ha & _).
  destruct (url_request_counts 0 1 evs "/c") as (_ & _ & Hc).
  split.
  - apply Ha. vm_compute. discriminate.
  - apply Hc. vm_compute. reflexivity.
Defined.

(** X4. After any run, [RequestTypeCounts] and [UserAgentCounts] hold for
    every method and every user agent the number of requests recorded with it
    (wrapped to an [int]; exactly that number when the run records no more
    than [max_int] requests). *)
Theorem method_and_agent_counts (now0 pid : Z) (evs : list event) (k : string) :
  let mw := run (New now0 pid) evs in
  let by_method := requests_where (fun _ _ method _ => bool_decide (method = k)) evs in
  let by_agent := requests_where (fun _ _ _ useragent => bool_decide (useragent = k)) evs in
  geti (RequestTypeCounts mw) k = GoInt.wrap (Z.of_nat by_method)
  /\ geti (UserAgentCounts mw) k = GoInt.wrap (Z.of_nat by_agent)
  /\ (Z.of_nat (recorded evs) <= GoInt.max_int ->
      geti (RequestTypeCounts mw) k = Z.of_nat by_method
      /\ geti (UserAgentCounts mw) k = Z.of_nat by_agent).
Proof.
  intros mw by_method by_agent. subst mw by_method by_agent.
  assert (Hm : geti (RequestTypeCounts (run (New now0 pid) evs)) k
               = GoInt.wrap (Z.of_nat (requests_where
                   (fun _ _ method _ => bool_decide (method = k)) evs))).
  { rewrite (run_counter RequestTypeCounts (fun _ _ method _ => method));
      [reflexivity | reflexivity | reflexivity | | apply in_range_0].
    intros. apply Data_store_same. }
  assert (Ha : geti (UserAgentCounts (run (New now0 pid) evs)) k
               = GoInt.wrap (Z.of_nat (requests_where
                   (fun _ _ _ useragent => bool_decide (useragent = k)) evs))).
  { rewrite (run_counter UserAgentCounts (fun _ _ _ useragent => useragent));
      [reflexivity | reflexivity | reflexivity | | apply in_range_0].
    intros. apply Data_store_same. }
  split; [exact Hm |]. split; [exact Ha |].
  intros HN. rewrite Hm, Ha. split; apply wrap_of_nat.
  - pose proof (requests_where_le (fun _ _ method _ => bool_decide (method = k)) evs). lia.
  - pose proof (requests_where_le (fun _ _ _ useragent => bool_decide (useragent = k)) evs). lia.
Qed.

Lemma method_and_agent_counts_witness :
  let evs := [EvEnd 10 10 0 200 "/a" "GET" "curl"; EvReset;
              EvEnd 25 25 20 404 "/b" "POST" "curl"; EvData 30 30;
              EvEnd 40 40 31 200 "/a" "GET" "wget"] in
  geti (RequestTypeCounts (run (New 0 1) evs)) "GET" = 2
  /\ geti (UserAgentCounts (run (New 0 1) evs)) "GET" = 0.
Proof.
  intros evs.
  destruct (method_and_agent_counts 0 1 evs "GET") as (_ & _ & H).
  apply H. vm_compute. discriminate.
Defined.

(** X5. The status counters are keyed by the decimal rendering of the status
    code, and two different codes never share a key: after any run,
    [TotalResponseCounts] holds under the key of status [st] the number of
    requests recorded with exactly that status. *)
Theorem status_counts (now0 pid : Z) (evs : list event) (st : Z) :
  let m := TotalResponseCounts (run (New now0 pid) evs) in
  let n := requests_where (fun status _ _ _ => bool_decide (status = st)) evs in
  geti m (pretty st) = GoInt.wrap (Z.of_nat n)
  /\ (Z.of_nat (recorded evs) <= GoInt.max_int -> geti m (pretty st) = Z.of_nat n)
  /\ (m !! pretty st = None <-> n = O).
Proof.
  intros m n. subst m n.
  assert (Hk : requests_where (fun status _ _ _ => bool_decide (pretty status = pretty st)) evs
               = requests_where (fun status _ _ _ => bool_decide (status = st)) evs).
  { induction evs as [|ev evs IH]; simpl; [reflexivity |].
    destruct ev as [end_ now start status url method useragent| |now now2]; auto.
    destruct (decide (status = st)) as [-> | Hne].
    - rewrite !bool_decide_eq_true_2 by reflexivity. congruence.
    - rewrite !bool_decide_eq_false_2; [exact IH | exact Hne |].
      intros Heq. apply Hne. exact (pretty_Z_inj _ _ Heq). }
  assert (Hc : geti (TotalResponseCounts (run (New now0 pid) evs)) (pretty st)
               = GoInt.wrap (Z.of_nat (requests_where
                   (fun status _ _ _ => bool_decide (status = st)) evs))).
  { rewrite <- Hk.
    rewrite (run_counter TotalResponseCounts (fun status _ _ _ => pretty status));
      [reflexivity | reflexivity | reflexivity | | apply in_range_0].
    intros. apply Data_store_same. }
  split; [exact Hc |]. split.
  - intros HN. rewrite Hc. apply wrap_of_nat.
    pose proof (requests_where_le (fun status _ _ _ => bool_decide (status = st)) evs). lia.
  - rewrite <- Hk. rewrite eq_None_not_Some.
    rewrite (run_counter_dom TotalResponseCounts (fun status _ _ _ => pretty status));
      [| reflexivity | reflexivity | intros; apply Data_store_same].
    simpl. rewrite lookup_empty. split.
    + intros Hn. destruct (requests_where _ evs); [reflexivity |].
      exfalso. apply Hn. right. discriminate.
    + intros -> [[x Hx] | Hx]; [discriminate | congruence].
Qed.

Lemma status_counts_witness :
  let evs := [EvEnd 10 10 0 200 "/a" "GET" "curl"; EvReset;
              EvEnd 25 25 20 404 "/b" "POST" "curl"; EvData 30 30;
              EvEnd 40 40 31 200 "/a" "GET" "wget"] in
  TotalResponseCounts (run (New 0 1) evs) !! "200" = Some 2
  /\ geti (TotalResponseCounts (run (New 0 1) evs)) (pretty 200) = 2
  /\ TotalResponseCounts (run (New 0 1) evs) !! pretty 500 = None.
Proof.
  intros evs.
  destruct (status_counts 0 1 evs 200) as (_ & H200 & _).
  destruct (status_counts 0 1 evs 500) as (_ & _ & H500).
  split; [vm_compute; reflexivity |]. split.
  - apply H200. vm_compute. discriminate.
  - apply H500. vm_compute. reflexivity.
Defined.

(** ** Accumulated durations *)

Lemma geti_addto_eq (m : gmap string Z) k d : geti (addto m k d) k = GoInt.add (geti m k) d.
Proof. unfold addto, geti at 1. rewrite lookup_insert_eq. reflexivity. Qed.

Lemma geti_addto_ne (m : gmap string Z) k k' d : k <> k' -> geti (addto m k d) k' = geti m k'.
Proof. intros Hne. unfold addto, geti at 1. rewrite lookup_insert_ne by exact Hne. reflexivity. Qed.

Lemma run_latency (u : string) (evs : list event) : forall mw,
  GoInt.in_range (geti (URLRequestLatency mw) u) ->
  geti (URLRequestLatency (run mw evs)) u
  = GoInt.wrap (geti (URLRequestLatency mw) u + Zsum (elapsed_of_url u evs)).
Proof.
  induction evs as [|ev evs IH]; intros mw Hr.
  - simpl. rewrite Z.add_0_r. symmetry. apply wrap_id, Hr.
  - destruct ev as [end_ now start status url method useragent| |now now2].
    + change (run mw (EvEnd end_ now start status url method useragent :: evs))
        with (run (EndWithStatus end_ now mw start status url method useragent) evs).
      simpl elapsed_of_url. cbn [URLRequestLatency EndWithStatus] in IH.
      destruct (decide (url = u)) as [-> | Hne].
      * rewrite IH; cbn [URLRequestLatency EndWithStatus]; rewrite geti_addto_eq;
          [| apply wrap_range].
        unfold GoInt.add. rewrite wrap_add_l. f_equal. simpl. lia.
      * rewrite IH; cbn [URLRequestLatency EndWithStatus];
          rewrite geti_addto_ne by exact Hne; [reflexivity | exact Hr].
    + change (run mw (EvReset :: evs)) with (run (ResetResponseCounts mw) evs).
      rewrite IH; [reflexivity | exact Hr].
    + change (run mw (EvData now now2 :: evs))
        with (run (snd (Data (fun _ => "") (fun _ => "") now now2 mw)) evs).
      destruct (Data_store_same (fun _ => "") (fun _ => "") now now2 mw)
        as (_ & _ & _ & _ & Hl & _).
      rewrite IH; rewrite Hl; [reflexivity | exact Hr].
Qed.

(** X6. After any run, [URLRequestLatency] holds for every URL the sum of
    the elapsed durations recorded for it, wrapped to an [int]; in particular
    the exact sum when that sum fits an [int]. *)
Theorem url_latency_sum (now0 pid : Z) (evs : list event) (u : string) :
  let m := URLRequestLatency (run (New now0 pid) evs) in
  geti m u = GoInt.wrap (Zsum (elapsed_of_url u evs))
  /\ (GoInt.in_range (Zsum (elapsed_of_url u evs)) ->
      geti m u = Zsum (elapsed_of_url u evs)).
Proof.
  intros m. subst m.
  assert (H : geti (URLRequestLatency (run (New now0 pid) evs)) u
              = GoInt.wrap (Zsum (elapsed_of_url u evs))).
  { rewrite run_latency by apply in_range_0. reflexivity. }
  split; [exact H |]. intros Hr. rewrite H. apply wrap_id, Hr.
Qed.

Lemma url_latency_sum_witness :
  let evs := [EvEnd 10 10 0 200 "/a" "GET" "curl"; EvReset;
              EvEnd 25 25 20 404 "/b" "POST" "curl"; EvData 30 30;
              EvEnd 40 40 31 200 "/a" "GET" "wget"] in
  geti (URLRequestLatency (run (New 0 1) evs)) "/a" = 19.
Proof.
  intros evs. destruct (url_latency_sum 0 1 evs "/a") as [_ H].
  apply H. vm_compute. split; discriminate.
Defined.

Lemma run_total_time (evs : list event) : forall mw,
  TotalResponseTime (run mw evs) = TotalResponseTime mw + Zsum (elapsed_of evs).
Proof.
  induction evs as [|ev evs IH]; intros mw.
  - simpl. lia.
  - destruct ev as [end_ now start status url method useragent| |now now2].
    + change (run mw (EvEnd end_ now start status url method useragent :: evs))
        with (run (EndWithStatus end_ now mw start status url method useragent) evs).
      rewrite IH. cbn [TotalResponseTime EndWithStatus]. unfold GoTime.Add.
      simpl. lia.
    + change (run mw (EvReset :: evs)) with (run (ResetResponseCounts mw) evs).
      rewrite IH. reflexivity.
    + change (run mw (EvData now now2 :: evs))
        with (run (snd (Data (fun _ => "") (fun _ => "") now now2 mw)) evs).
      destruct (Data_store_same (fun _ => "") (fun _ => "") now now2 mw)
        as (_ & _ & _ & _ & _ & _ & Ht & _).
      rewrite IH, Ht. reflexivity.
Qed.




(** ** Resets and exports *)

Lemma run_app (mw : Stats) (l1 l2 : list event) :
  run mw (l1 ++ l2) = run (run mw l1) l2.
Proof. unfold run. apply fold_left_app. Qed.

(** What [since_last_reset] selects: the run splits at its last reset. *)
Lemma since_last_reset_spec (evs : list event) : forall acc,
  EvReset ∉ acc ->
  let w := since_last_reset acc evs in
  (EvReset ∉ w)
  /\ (((EvReset ∉ evs) /\ w = acc ++ evs)
      \/ exists pre, evs = pre ++ EvReset :: w).
Proof.
  induction evs as [|ev evs IH]; intros acc Hacc.
  - simpl. split; [exact Hacc |]. left. split; [apply not_elem_of_nil |].
    rewrite app_nil_r. reflexivity.
  - assert (Hstep : since_last_reset acc (ev :: evs)
                    = since_last_reset (match ev with EvReset => [] | _ => acc ++ [ev] end) evs)
      by reflexivity.
    cbv zeta. rewrite Hstep.
    destruct ev as [end_ now start status url method useragent| |now now2].
    + destruct (IH (acc ++ [EvEnd end_ now start status url method useragent]))
        as [Hw [[Hn Heq] | [pre Hpre]]].
      * rewrite elem_of_app, list_elem_of_singleton. intros [? | ?]; [auto | discriminate].
      * split; [exact Hw |]. left. split.
        -- rewrite not_elem_of_cons. split; [discriminate | exact Hn].
        -- rewrite Heq, <- app_assoc. reflexivity.
      * split; [exact Hw |]. right. eexists (_ :: pre). simpl. rewrite <- Hpre. reflexivity.
    + destruct (IH []) as [Hw [[Hn Heq] | [pre Hpre]]]; [apply not_elem_of_nil | |].
      * split; [exact Hw |]. right. exists []. simpl. rewrite Heq. reflexivity.
      * split; [exact Hw |]. right. eexists (_ :: pre). simpl. rewrite <- Hpre. reflexivity.
    + destruct (IH (acc ++ [EvData now now2]))
        as [Hw [[Hn Heq] | [pre Hpre]]].
      * rewrite elem_of_app, list_elem_of_singleton. intros [? | ?]; [auto | discriminate].
      * split; [exact Hw |]. left. split.
        -- rewrite not_elem_of_cons. split; [discriminate | exact Hn].
        -- rewrite Heq, <- app_assoc. reflexivity.
      * split; [exact Hw |]. right. eexists (_ :: pre). simpl. rewrite <- Hpre. reflexivity.
Qed.

Lemma run_window (now0 pid : Z) (evs : list event) : forall mw acc,
  ResponseCounts mw = TotalResponseCounts (run (New now0 pid) acc) ->
  ResponseCounts (run mw evs)
  = TotalResponseCounts (run (New now0 pid) (since_last_reset acc evs)).
Proof.
  induction evs as [|ev evs IH]; intros mw acc Hacc; [exact Hacc |].
  assert (Hstep : since_last_reset acc (ev :: evs)
                  = since_last_reset (match ev with EvReset => [] | _ => acc ++ [ev] end) evs)
    by reflexivity.
  rewrite Hstep.
  change (run mw (ev :: evs)) with (run (step mw ev) evs).
  apply IH.
  destruct ev as [end_ now start status url method useragent| |now now2].
  - rewrite run_app. simpl. rewrite Hacc. reflexivity.
  - reflexivity.
  - rewrite run_app.
    change (run (run (New now0 pid) acc) [EvData now now2])
      with (step (run (New now0 pid) acc) (EvData now now2)).
    unfold step.
    destruct (Data_store_same (fun _ => "") (fun _ => "") now now2 mw)
      as (_ & _ & -> & _).
    destruct (Data_store_same (fun _ => "") (fun _ => "") now now2
                (run (New now0 pid) acc)) as (_ & _ & _ & -> & _).
    exact Hacc.
Qed.

(** X8. The window counters hold the requests recorded since the last reset:
    the exported [StatusCodeCount] is the map the cumulative counters would
    be, had the program started at the last reset, and [Count] is the number
    of requests recorded since (wrapped to an [int]). *)
Theorem window_counts_since_last_reset
    (Duration_String Time_String : Z -> string) (now0 pid now now2 : Z)
    (evs : list event) :
  let d := fst (Data Duration_String Time_String now now2 (run (New now0 pid) evs)) in
  let w := since_last_reset [] evs in
  data.StatusCodeCount d = TotalResponseCounts (run (New now0 pid) w)
  /\ data.Count d = GoInt.wrap (Z.of_nat (recorded w))
  /\ (Z.of_nat (recorded w) <= GoInt.max_int -> data.Count d = Z.of_nat (recorded w)).
Proof.
  intros d w.
  assert (Hw : ResponseCounts (run (New now0 pid) evs)
               = TotalResponseCounts (run (New now0 pid) w))
    by (apply run_window; reflexivity).
  assert (Hd : data.StatusCodeCount d = ResponseCounts (run (New now0 pid) evs)
               /\ data.Count d = range_sum (ResponseCounts (run (New now0 pid) evs))).
  { subst d. unfold Data. destruct (SecondsToDate _) as [[[[x1 x2] x3] x4] x5].
    split; reflexivity. }
  destruct Hd as [Hm Hc].
  assert (Hcount : data.Count d = GoInt.wrap (Z.of_nat (recorded w))).
  { rewrite Hc, Hw, run_range_sum. reflexivity. }
  split; [rewrite Hm; exact Hw |]. split; [exact Hcount |].
  intros Hn. rewrite Hcount. apply wrap_of_nat, Hn.
Qed.

Lemma window_counts_since_last_reset_witness :
  let evs := [EvEnd 10 10 0 200 "/a" "GET" "curl";
              EvEnd 25 25 20 404 "/b" "POST" "curl"; EvReset; EvData 30 30;
              EvEnd 40 40 31 200 "/a" "GET" "wget"] in
  data.Count (fst (Data (fun _ => "") (fun _ => "") 50 50 (run (New 0 1) evs))) = 1.
Proof.
  intros evs.
  destruct (window_counts_since_last_reset (fun _ => "") (fun _ => "") 0 1 50 50 evs)
    as (_ & _ & H).
  apply H. vm_compute. discriminate.
Defined.

Lemma step_same_but_window a b ev :
  same_but_window a b -> same_but_window (step a ev) (step b ev).
Proof.
  intros (H1 & H2 & H3 & H4 & H5 & H6 & H7 & H8 & H9 & H10 & H11).
  destruct ev as [end_ now start status url method useragent| |now now2].
  - unfold same_but_window, step, EndWithStatus. cbn.
    rewrite H1, H2, H3, H4, H5, H6, H7, H8, H9, H10, H11. repeat split.
  - unfold same_but_window. cbn. repeat split; assumption.
  - unfold same_but_window, step, Data.
    rewrite H11. destruct (SecondsToDate _) as [[[[x1 x2] x3] x4] x5]. cbn.
    rewrite H1, H2, H3, H4, H5, H6, H7, H8, H9, H10. repeat split.
Qed.

(** X9. The reset goroutine never disturbs anything but the window counters:
    a run and the same run with its resets removed leave stores that agree
    on every field other than [ResponseCounts]. *)
Theorem resets_touch_only_the_window (now0 pid : Z) (evs : list event) :
  same_but_window (run (New now0 pid) evs) (run (New now0 pid) (without_resets evs)).
Proof.
  assert (H : forall evs a b, same_but_window a b ->
                same_but_window (run a evs) (run b (without_resets evs))).
  { clear. induction evs as [|ev l IH]; intros a b Hab; [exact Hab |].
    destruct ev as [end_ now start status url method useragent| |now now2].
    - apply (IH (step a _) (step b _)), step_same_but_window, Hab.
    - apply (IH (step a EvReset) b).
      destruct Hab as (H1 & H2 & H3 & H4 & H5 & H6 & H7 & H8 & H9 & H10 & H11).
      unfold same_but_window. cbn. repeat split; assumption.
    - apply (IH (step a _) (step b _)), step_same_but_window, Hab. }
  apply H. unfold same_but_window. repeat split.
Qed.

Lemma step_same_but_derived a b ev :
  same_but_derived a b -> same_but_derived (step a ev) (step b ev).
Proof.
  intros (H1 & H2 & H3 & H4 & H5 & H6 & H7 & H8 & H9 & H10 & H11
          & H12 & H13 & H14 & H15).
  destruct ev as [end_ now start status url method useragent| |now now2].
  - unfold same_but_derived, step, EndWithStatus. cbn.
    rewrite H1, H2, H3, H4, H5, H6, H7, H8, H9, H10, H11, H14.
    destruct (_ <? _); cbn; repeat split; assumption.
  - unfold same_but_derived. cbn. repeat split; assumption.
  - unfold same_but_derived, step, Data. rewrite H15.
    destruct (SecondsToDate _) as [[[[x1 x2] x3] x4] x5]. cbn.
    repeat split; assumption.
Qed.

Lemma Data_report_same ds ts now now2 a b :
  same_but_derived a b ->
  fst (Data ds ts now now2 a) = fst (Data ds ts now now2 b).
Proof.
  intros (H1 & H2 & H3 & H4 & H5 & H6 & H7 & H8 & H9 & H10 & H11
          & H12 & H13 & H14 & H15).
  unfold Data. rewrite H15.
  destruct (SecondsToDate _) as [[[[x1 x2] x3] x4] x5]. cbn.
  rewrite H1, H2, H3, H4, H5, H6, H7, H8, H9, H10, H11, H12, H13, H14.
  reflexivity.
Qed.

(** X10. [Data] writes to the store, but only the two derived fields of the
    peak record, which every export recomputes before it reads them: what an
    export reports is what it would report had no earlier export taken place,
    and the stores agree on every other field. *)
Theorem exports_leave_no_trace
    (Duration_String Time_String : Z -> string) (now0 pid now now2 : Z)
    (evs : list event) :
  same_but_derived (run (New now0 pid) evs) (run (New now0 pid) (without_exports evs))
  /\ fst (Data Duration_String Time_String now now2 (run (New now0 pid) evs))
     = fst (Data Duration_String Time_String now now2
              (run (New now0 pid) (without_exports evs))).
Proof.
  assert (H : forall evs a b, same_but_derived a b ->
                same_but_derived (run a evs) (run b (without_exports evs))).
  { clear. induction evs as [|ev l IH]; intros a b Hab; [exact Hab |].
    destruct ev as [end_ now start status url method useragent| |now now2].
    - apply (IH (step a _) (step b _)), step_same_but_derived, Hab.
    - apply (IH (step a _) (step b _)), step_same_but_derived, Hab.
    - apply (IH (step a (EvData now now2)) b).
      destruct Hab as (H1 & H2 & H3 & H4 & H5 & H6 & H7 & H8 & H9 & H10 & H11
                       & H12 & H13 & H14 & H15).
      destruct (Data_store_same (fun _ => "") (fun _ => "") now now2 a)
        as (G1 & G2 & G3 & G4 & G5 & G6 & G7 & G8 & G9 & G10 & G11
            & G12 & G13 & G14 & G15).
      unfold same_but_derived, step.
      rewrite G1, G2, G3, G4, G5, G6, G7, G8, G9, G10, G11, G12, G13, G14, G15.
      repeat split; assumption. }
  assert (H0 : same_but_derived (New now0 pid) (New now0 pid))
    by (unfold same_but_derived; repeat split).
  split; [apply H, H0 |]. apply Data_report_same, H, H0.
Qed.

Lemma run_pid_uptime (evs : list event) : forall mw,
  Pid (run mw evs) = Pid mw /\ Uptime (run mw evs) = Uptime mw.
Proof.
  induction evs as [|ev evs IH]; intros mw; [split; reflexivity |].
  change (run mw (ev :: evs)) with (run (step mw ev) evs).
  destruct (IH (step mw ev)) as [-> ->].
  destruct ev as [end_ now start status url method useragent| |now now2];
    [split; reflexivity | split; reflexivity |].
  destruct (Data_store_same (fun _ => "") (fun _ => "") now now2 mw) as (Hp & Hu & _).
  split; [exact Hu | exact Hp].
Qed.

(** X11. The process id and the start time are set by [New] and never
    change: every later report shows the pid given at creation and an uptime
    counted from the creation time (saturated to a [Duration]). *)
Theorem pid_and_uptime_are_fixed
    (Duration_String Time_String : Z -> string) (now0 pid now now2 : Z)
    (evs : list event) :
  let mw := run (New now0 pid) evs in
  let d := fst (Data Duration_String Time_String now now2 mw) in
  Pid mw = pid /\ Uptime mw = now0
  /\ data.Pid d = pid
  /\ data.UpTime d = Duration_String (GoTime.Sub now now0)
  /\ data.UpTimeSec d = GoTime.Seconds (GoTime.Sub now now0).
Proof.
  intros mw d. destruct (run_pid_uptime evs (New now0 pid)) as [Hp Hu].
  fold mw in Hp, Hu. simpl in Hp, Hu.
  split; [exact Hp |]. split; [exact Hu |].
  subst d. unfold Data. destruct (SecondsToDate _) as [[[[x1 x2] x3] x4] x5].
  cbn. rewrite Hp, Hu. repeat split.
Qed.

(** ** Which request the peak record names *)

Lemma elapsed_of_app (l1 l2 : list event) :
  elapsed_of (l1 ++ l2) = elapsed_of l1 ++ elapsed_of l2.
Proof.
  induction l1 as [|ev l1 IH]; [reflexivity |].
  destruct ev; simpl; rewrite IH; reflexivity.
Qed.

Lemma run_snoc (mw : Stats) (l : list event) (ev : event) :
  run mw (l ++ [ev]) = step (run mw l) ev.
Proof. rewrite run_app. reflexivity. Qed.

Lemma run_peak_bounds (now0 pid : Z) (evs : list event) :
  let p := ResponseDuration (MaxResponseTime (run (New now0 pid) evs)) in
  0 <= p /\ forall e, e ∈ elapsed_of evs -> e <= p.
Proof.
  intros p. subst p. rewrite run_peak_duration. apply fold_left_max_bound.
Qed.

(** X12. The peak record names one recorded request, all four assigned fields
    coming from it: the first request whose elapsed duration is the largest
    one (a later request with the same duration does not take its place).
    While no request with a positive duration has been recorded, the record
    is still the empty one [New] made. *)
Theorem peak_names_first_longest_request (now0 pid : Z) (evs : list event) :
  let peak := MaxResponseTime (run (New now0 pid) evs) in
  (ResponseDuration peak = 0 /\ ResponseURL' peak = "" /\ RepsonseMethod peak = ""
   /\ ResponseTime peak = GoTime.zero
   /\ forall e, e ∈ elapsed_of evs -> e <= 0)
  \/ (exists pre post end_ now start status url method useragent,
        evs = pre ++ EvEnd end_ now start status url method useragent :: post
        /\ ResponseURL' peak = url
        /\ RepsonseMethod peak = method
        /\ ResponseTime peak = now
        /\ ResponseDuration peak = GoTime.Sub end_ start
        /\ 0 < GoTime.Sub end_ start
        /\ (forall e, e ∈ elapsed_of pre -> e < GoTime.Sub end_ start)
        /\ (forall e, e ∈ elapsed_of post -> e <= GoTime.Sub end_ start)).
Proof.
  induction evs as [|ev evs IH] using rev_ind.
  - left. simpl. repeat split. intros e He. inversion He.
  - cbv zeta in *. rewrite run_snoc.
    destruct (run_peak_bounds now0 pid evs) as [Hp0 Hpub].
    set (mw := run (New now0 pid) evs) in *.
    destruct ev as [end_ now start status url method useragent| |now now2].
    + unfold step. rewrite EndWithStatus_peak.
      destruct (ResponseDuration (MaxResponseTime mw) <? GoTime.Sub end_ start) eqn:E.
      * apply Z.ltb_lt in E. right.
        exists evs, [], end_, now, start, status, url, method, useragent.
        unfold peak_for. cbn [ResponseURL' RepsonseMethod ResponseTime ResponseDuration].
        repeat split; try lia.
        -- intros e He. specialize (Hpub e He). lia.
        -- intros e He. inversion He.
      * apply Z.ltb_ge in E.
        destruct IH as [(H0 & Hu & Hm & Ht & Hall)
                       | (pre & post & e1 & n1 & s1 & st1 & u1 & m1 & a1
                          & Hev & Hu & Hm & Ht & Hd & Hpos & Hpre & Hpost)].
        -- left. repeat split; try assumption.
           intros e He. rewrite elapsed_of_app in He.
           apply elem_of_app in He as [He | He]; [auto |].
           simpl in He. apply list_elem_of_singleton in He. lia.
        -- right. exists pre, (post ++ [EvEnd end_ now start status url method useragent]),
             e1, n1, s1, st1, u1, m1, a1.
           repeat split; try assumption.
           ++ rewrite Hev, <- app_assoc. reflexivity.
           ++ intros e He. rewrite elapsed_of_app in He.
              apply elem_of_app in He as [He | He]; [auto |].
              simpl in He. apply list_elem_of_singleton in He. lia.
    + change (MaxResponseTime (step mw EvReset)) with (MaxResponseTime mw).
      destruct IH as [(H0 & Hu & Hm & Ht & Hall)
                     | (pre & post & e1 & n1 & s1 & st1 & u1 & m1 & a1
                        & Hev & Hu & Hm & Ht & Hd & Hpos & Hpre & Hpost)].
      * left. repeat split; try assumption.
        intros e He. rewrite elapsed_of_app, app_nil_r in He. auto.
      * right. exists pre, (post ++ [EvReset]), e1, n1, s1, st1, u1, m1, a1.
        repeat split; try assumption.
        -- rewrite Hev, <- app_assoc. reflexivity.
        -- intros e He. rewrite elapsed_of_app, app_nil_r in He. auto.
    + unfold step.
      destruct (Data_store_peak (fun _ => "") (fun _ => "") now now2 mw)
        as (Gu & Gm & Gd & Gt). cbv zeta in Gu, Gm, Gd, Gt.
      rewrite Gu, Gm, Gd, Gt.
      destruct IH as [(H0 & Hu & Hm & Ht & Hall)
                     | (pre & post & e1 & n1 & s1 & st1 & u1 & m1 & a1
                        & Hev & Hu & Hm & Ht & Hd & Hpos & Hpre & Hpost)].
      * left. repeat split; try assumption.
        intros e He. rewrite elapsed_of_app, app_nil_r in He. auto.
      * right. exists pre, (post ++ [EvData now now2]), e1, n1, s1, st1, u1, m1, a1.
        repeat split; try assumption.
        -- rewrite Hev, <- app_assoc. reflexivity.
        -- intros e He. rewrite elapsed_of_app, app_nil_r in He. auto.
Qed.

Lemma peak_names_first_longest_request_witness :
  let evs := [EvEnd 10 11 0 200 "/a" "GET" "curl";
              EvEnd 70 71 20 200 "/b" "GET" "curl";
              EvEnd 150 151 100 500 "/c" "PUT" "curl"] in
  let peak := MaxResponseTime (run (New 0 1) evs) in
  (exists end_ start, ResponseDuration peak = GoTime.Sub end_ start
                      /\ 0 < GoTime.Sub end_ start)
  /\ ResponseURL' peak = "/b" /\ ResponseDuration peak = 50 /\ ResponseTime peak = 71.
Proof.
  intros evs peak. split; [| vm_compute; repeat split].
  destruct (peak_names_first_longest_request 0 1 evs)
    as [(H0 & _) | (pre & post & e1 & n1 & s1 & st1 & u1 & m1 & a1
                    & _ & _ & _ & _ & Hd & Hpos & _)].
  - vm_compute in H0. discriminate.
  - exists e1, s1. split; [exact Hd | exact Hpos].
Defined.

(** ** The lowest latency of a URL *)

Lemma EndWithStatus_lowest end_ now mw start status url method ua :
  let e := F64.of_int (GoTime.Sub end_ start) in
  let lo := URLLowestResponse mw in
  URLLowestResponse (EndWithStatus end_ now mw start status url method ua)
  = if F64.eqb (getf lo url) F64.zero then <[url := e]> lo
    else if F64.ltb e (getf lo url) then <[url := e]> lo
    else lo.
Proof.
  intros e lo. unfold EndWithStatus. cbn [URLLowestResponse].
  fold lo. fold e. change (F64.of_int 0) with F64.zero.
  destruct (F64.eqb (getf lo url) F64.zero); [| reflexivity].
  unfold getf at 1. rewrite lookup_insert_eq. simpl.
  unfold F64.ltb. rewrite SFltb_irrefl. reflexivity.
Qed.

Lemma Data_store_lowest ds ts now now2 mw :
  URLLowestResponse (snd (Data ds ts now now2 mw)) = URLLowestResponse mw.
Proof. apply Data_store_same. Qed.

Lemma SFltb_zero_not_eqb (x : spec_float) :
  SFltb F64.zero x = true -> SFeqb x F64.zero = false.
Proof.
  unfold F64.zero, SFltb, SFeqb, SFcompare.
  destruct x as [s|s| |s m e]; try destruct s; simpl; congruence.
Qed.

(** Along a run in which every latency of [u] is positive, the entry of [u]
    is missing as long as none is recorded, and is the least of them after. *)
Lemma run_lowest (u : string) (evs : list event) : forall (mw : Stats) (l : list Z),
  (forall e, e ∈ l ++ elapsed_of_url u evs ->
             F64.ltb F64.zero (F64.of_int e) = true) ->
  ((l = [] /\ URLLowestResponse mw !! u = None)
   \/ exists e0, e0 ∈ l /\ URLLowestResponse mw !! u = Some (F64.of_int e0)
                 /\ forall e, e ∈ l -> F64.ltb (F64.of_int e) (F64.of_int e0) = false) ->
  let l' := l ++ elapsed_of_url u evs in
  let lo' := URLLowestResponse (run mw evs) in
  (l' = [] /\ lo' !! u = None)
  \/ exists e0, e0 ∈ l' /\ lo' !! u = Some (F64.of_int e0)
                /\ forall e, e ∈ l' -> F64.ltb (F64.of_int e) (F64.of_int e0) = false.
Proof.
  induction evs as [|ev evs IH]; intros mw l Hpos Hinv.
  - simpl. rewrite app_nil_r. exact Hinv.
  - destruct ev as [end_ now start status url method useragent| |now now2].
    + change (run mw (EvEnd end_ now start status url method useragent :: evs))
        with (run (EndWithStatus end_ now mw start status url method useragent) evs).
      simpl elapsed_of_url in *. destruct (decide (url = u)) as [-> | Hne].
      * set (x := GoTime.Sub end_ start) in *.
        replace (l ++ x :: elapsed_of_url u evs)
          with ((l ++ [x]) ++ elapsed_of_url u evs) in *
          by (rewrite <- app_assoc; reflexivity).
        apply IH; [exact Hpos |]. right.
        rewrite EndWithStatus_lowest. fold x. cbv zeta.
        destruct Hinv as [[-> Hn] | (e0 & He0 & Hs & Hmin)].
        -- unfold getf. rewrite Hn. simpl.
           change (F64.eqb F64.zero F64.zero) with true. cbv iota.
           exists x. split; [apply list_elem_of_here |].
           split; [apply lookup_insert_eq |].
           intros e He. apply list_elem_of_singleton in He as ->. apply SFltb_irrefl.
        -- assert (Hg : getf (URLLowestResponse mw) u = F64.of_int e0)
             by (unfold getf; rewrite Hs; reflexivity).
           rewrite Hg.
           assert (Hnz : F64.eqb (F64.of_int e0) F64.zero = false).
           { apply SFltb_zero_not_eqb, Hpos.
             apply elem_of_app. left. apply elem_of_app. left. exact He0. }
           rewrite Hnz.
           destruct (F64.ltb (F64.of_int x) (F64.of_int e0)) eqn:Hlt.
           ++ exists x. split; [apply elem_of_app; right; apply list_elem_of_here |].
              split; [apply lookup_insert_eq |].
              intros e He. apply elem_of_app in He as [He | He].
              ** destruct (F64.ltb (F64.of_int e) (F64.of_int x)) eqn:Hlt2; [| reflexivity].
                 pose proof (SFltb_trans _ _ _ Hlt2 Hlt) as Ht.
                 unfold F64.ltb in Hmin. rewrite (Hmin e He) in Ht. discriminate.
              ** apply list_elem_of_singleton in He as ->. apply SFltb_irrefl.
           ++ exists e0. split; [apply elem_of_app; left; exact He0 |].
              split; [exact Hs |].
              intros e He. apply elem_of_app in He as [He | He]; [auto |].
              apply list_elem_of_singleton in He as ->. exact Hlt.
      * apply IH; [exact Hpos |].
        assert (Hsame : URLLowestResponse
                          (EndWithStatus end_ now mw start status url method useragent) !! u
                        = URLLowestResponse mw !! u).
        { rewrite EndWithStatus_lowest. cbv zeta.
          destruct (F64.eqb _ _); [apply lookup_insert_ne; exact Hne |].
          destruct (F64.ltb _ _); [apply lookup_insert_ne; exact Hne | reflexivity]. }
        rewrite Hsame. exact Hinv.
    + change (run mw (EvReset :: evs)) with (run (ResetResponseCounts mw) evs).
      apply IH; assumption.
    + change (run mw (EvData now now2 :: evs))
        with (run (snd (Data (fun _ => "") (fun _ => "") now now2 mw)) evs).
      apply IH; [exact Hpos |]. rewrite Data_store_lowest. exact Hinv.
Qed.

(** X13. For a URL all of whose recorded latencies are strictly positive (as
    [float64] values), [URLLowestResponse] holds the minimum of the latencies
    recorded for it: one of them, and none is below it. *)
Theorem lowest_response_is_minimum (now0 pid : Z) (evs : list event) (u : string) :
  (forall e, e ∈ elapsed_of_url u evs -> F64.ltb F64.zero (F64.of_int e) = true) ->
  elapsed_of_url u evs <> [] ->
  exists e0, e0 ∈ elapsed_of_url u evs
             /\ URLLowestResponse (run (New now0 pid) evs) !! u = Some (F64.of_int e0)
             /\ forall e, e ∈ elapsed_of_url u evs ->
                          F64.ltb (F64.of_int e) (F64.of_int e0) = false.
Proof.
  intros Hpos Hne.
  destruct (run_lowest u evs (New now0 pid) [] Hpos) as [[Hnil _] | H].
  - left. split; reflexivity.
  - simpl in Hnil. contradiction.
  - exact H.
Qed.

Lemma lowest_response_is_minimum_witness :
  let evs := [EvEnd 10 10 0 200 "/a" "GET" "curl";
              EvEnd 70 70 20 200 "/a" "GET" "curl";
              EvEnd 85 85 80 200 "/a" "GET" "curl"] in
  exists e0, URLLowestResponse (run (New 0 1) evs) !! "/a" = Some (F64.of_int e0)
             /\ F64.ltb (F64.of_int 5) (F64.of_int e0) = false.
Proof.
  intros evs.
  destruct (lowest_response_is_minimum 0 1 evs "/a") as (e0 & _ & Hs & Hmin).
  - intros e He. vm_compute in He.
    repeat (apply elem_of_cons in He as [-> | He]; [vm_compute; reflexivity |]).
    inversion He.
  - vm_compute. discriminate.
  - exists e0. split; [exact Hs |]. apply Hmin.
    vm_compute. apply list_elem_of_further, list_elem_of_further, list_elem_of_here.
Defined.

(** X14. The zero sentinel of [URLLowestResponse]: a request of duration zero
    sets the entry of its URL to zero whenever that entry is missing, zero or
    positive, and the next request for the URL then overwrites the entry with
    its own latency, however large: the minimum recorded before is lost. *)
Theorem zero_latency_erases_minimum
    (end1 now1 end2 now2 : Z) (mw : Stats) (start1 status1 start2 status2 : Z)
    (url method1 agent1 method2 agent2 : string) :
  let cur := getf (URLLowestResponse mw) url in
  F64.eqb cur F64.zero = true \/ F64.ltb F64.zero cur = true ->
  GoTime.Sub end1 start1 = 0 ->
  let mw1 := EndWithStatus end1 now1 mw start1 status1 url method1 agent1 in
  let mw2 := EndWithStatus end2 now2 mw1 start2 status2 url method2 agent2 in
  URLLowestResponse mw1 !! url = Some F64.zero
  /\ URLLowestResponse mw2 !! url = Some (F64.of_int (GoTime.Sub end2 start2)).
Proof.
  intros cur Hcur Hz mw1 mw2.
  assert (H1 : URLLowestResponse mw1 !! url = Some F64.zero).
  { subst mw1. rewrite EndWithStatus_lowest. cbv zeta. rewrite Hz.
    change (F64.of_int 0) with F64.zero. fold cur.
    destruct (F64.eqb cur F64.zero) eqn:E; [apply lookup_insert_eq |].
    destruct Hcur as [Hc | Hc]; [discriminate |].
    rewrite Hc. apply lookup_insert_eq. }
  split; [exact H1 |].
  subst mw2. rewrite EndWithStatus_lowest. cbv zeta.
  unfold getf. rewrite H1. simpl.
  change (F64.eqb F64.zero F64.zero) with true. cbv iota.
  apply lookup_insert_eq.
Qed.

Lemma zero_latency_erases_minimum_witness :
  let mw := run (New 0 1) [EvEnd 10 10 5 200 "/a" "GET" "curl"] in
  let mw2 := EndWithStatus 90 90 (EndWithStatus 20 20 mw 20 200 "/a" "GET" "curl")
               30 200 "/a" "GET" "curl" in
  URLLowestResponse mw !! "/a" = Some (F64.of_int 5)
  /\ URLLowestResponse mw2 !! "/a" = Some (F64.of_int 60).
Proof.
  intros mw mw2. split; [vm_compute; reflexivity |].
  exact (proj2 (zero_latency_erases_minimum 20 20 90 90 mw 20 200 30 200
                  "/a" "GET" "curl" "GET" "curl"
                  ltac:(right; vm_compute; reflexivity)
                  ltac:(vm_compute; reflexivity))).
Defined.

(** ** Which URLs the per-URL maps know *)

Lemma run_lowest_dom (u : string) (evs : list event) : forall mw,
  is_Some (URLLowestResponse (run mw evs) !! u)
  <-> is_Some (URLLowestResponse mw !! u) \/ elapsed_of_url u evs <> [].
Proof.
  induction evs as [|ev evs IH]; intros mw.
  - simpl. split; [auto | intros [? | ?]; [assumption | congruence]].
  - destruct ev as [end_ now start status url method useragent| |now now2].
    + change (run mw (EvEnd end_ now start status url method useragent :: evs))
        with (run (EndWithStatus end_ now mw start status url method useragent) evs).
      rewrite IH, EndWithStatus_lowest. cbv zeta. simpl elapsed_of_url.
      destruct (decide (url = u)) as [-> | Hne].
      * split; [intros _; right; discriminate | intros _; left].
        destruct (F64.eqb (getf (URLLowestResponse mw) u) F64.zero) eqn:E;
          [rewrite lookup_insert_eq; eauto |].
        destruct (F64.ltb _ _); [rewrite lookup_insert_eq; eauto |].
        unfold getf in E. destruct (URLLowestResponse mw !! u); [eauto |].
        simpl in E. discriminate.
      * assert (Hsame : (if F64.eqb (getf (URLLowestResponse mw) url) F64.zero
                         then <[url := F64.of_int (GoTime.Sub end_ start)]> (URLLowestResponse mw)
                         else if F64.ltb (F64.of_int (GoTime.Sub end_ start))
                                         (getf (URLLowestResponse mw) url)
                              then <[url := F64.of_int (GoTime.Sub end_ start)]> (URLLowestResponse mw)
                              else URLLowestResponse mw) !! u
                        = URLLowestResponse mw !! u).
        { destruct (F64.eqb _ _); [apply lookup_insert_ne; exact Hne |].
          destruct (F64.ltb _ _); [apply lookup_insert_ne; exact Hne | reflexivity]. }
        rewrite Hsame. reflexivity.
    + change (run mw (EvReset :: evs)) with (run (ResetResponseCounts mw) evs).
      rewrite IH. reflexivity.
    + change (run mw (EvData now now2 :: evs))
        with (run (snd (Data (fun _ => "") (fun _ => "") now now2 mw)) evs).
      rewrite IH, Data_store_lowest. reflexivity.
Qed.

Lemma run_latency_dom (u : string) (evs : list event) : forall mw,
  is_Some (URLRequestLatency (run mw evs) !! u)
  <-> is_Some (URLRequestLatency mw !! u) \/ elapsed_of_url u evs <> [].
Proof.
  induction evs as [|ev evs IH]; intros mw.
  - simpl. split; [auto | intros [? | ?]; [assumption | congruence]].
  - destruct ev as [end_ now start status url method useragent| |now now2].
    + change (run mw (EvEnd end_ now start status url method useragent :: evs))
        with (run (EndWithStatus end_ now mw start status url method useragent) evs).
      rewrite IH. cbn [URLRequestLatency EndWithStatus]. unfold addto.
      simpl elapsed_of_url. destruct (decide (url = u)) as [-> | Hne].
      * rewrite lookup_insert_eq. split; [intros _; right; discriminate | eauto].
      * rewrite lookup_insert_ne by exact Hne. reflexivity.
    + change (run mw (EvReset :: evs)) with (run (ResetResponseCounts mw) evs).
      rewrite IH. reflexivity.
    + change (run mw (EvData now now2 :: evs))
        with (run (snd (Data (fun _ => "") (fun _ => "") now now2 mw)) evs).
      destruct (Data_store_same (fun _ => "") (fun _ => "") now now2 mw)
        as (_ & _ & _ & _ & Hl & _).
      rewrite IH, Hl. reflexivity.
Qed.

(** X15. After any run, [URLLowestResponse] and [URLRequestLatency] have an
    entry for exactly the URLs for which a request was recorded (whatever its
    duration), and [URLHighestResponse] has entries for such URLs only. *)
Theorem url_maps_know_recorded_urls (now0 pid : Z) (evs : list event) (u : string) :
  let mw := run (New now0 pid) evs in
  (is_Some (URLLowestResponse mw !! u) <-> elapsed_of_url u evs <> [])
  /\ (is_Some (URLRequestLatency mw !! u) <-> elapsed_of_url u evs <> [])
  /\ (is_Some (URLHighestResponse mw !! u) -> elapsed_of_url u evs <> []).
Proof.
  intros mw. subst mw. split; [| split].
  - rewrite run_lowest_dom. simpl. rewrite lookup_empty.
    split; [intros [[x Hx] | H]; [discriminate | exact H] | auto].
  - rewrite run_latency_dom. simpl. rewrite lookup_empty.
    split; [intros [[x Hx] | H]; [discriminate | exact H] | auto].
  - intros [x Hx].
    destruct (run_highest u evs (New now0 pid) []) as [_ [Hn | (e & He & _)]].
    + intros e He. inversion He.
    + left. reflexivity.
    + congruence.
    + simpl in He. intros Hnil. rewrite Hnil in He. inversion He.
Qed.

Lemma url_maps_know_recorded_urls_witness :
  let mw := run (New 0 1) [EvEnd 5 5 5 200 "/a" "GET" "curl"] in
  is_Some (URLLowestResponse mw !! "/a")
  /\ URLHighestResponse mw !! "/a" = None
  /\ URLHighestResponse mw !! "/b" = None.
Proof.
  intros mw.
  destruct (url_maps_know_recorded_urls 0 1 [EvEnd 5 5 5 200 "/a" "GET" "curl"] "/a")
    as (Hlo & _ & _).
  destruct (url_maps_know_recorded_urls 0 1 [EvEnd 5 5 5 200 "/a" "GET" "curl"] "/b")
    as (_ & _ & Hhi).
  split; [apply Hlo; vm_compute; discriminate |].
  split; [vm_compute; reflexivity |].
  apply eq_None_not_Some. intros H. apply Hhi in H. vm_compute in H. congruence.
Defined.

(** ** The average and the peak *)

Lemma Zsum_le_bound (l : list Z) (p : Z) :
  (forall e, e ∈ l -> e <= p) -> Zsum l <= Z.of_nat (length l) * p.
Proof.
  induction l as [|x l IH]; intros H; [simpl; lia |].
  pose proof (H x (list_elem_of_here _ _)) as Hx.
  assert (Hl : Zsum l <= Z.of_nat (length l) * p)
    by (apply IH; intros e He; apply H, list_elem_of_further, He).
  change (Zsum (x :: l)) with (x + Zsum l). simpl length. lia.
Qed.

Lemma Zsum_nonneg (l : list Z) : Forall (fun e => 0 <= e) l -> 0 <= Zsum l.
Proof.
  induction 1 as [|x l Hx _ IH]; [simpl; lia |].
  change (Zsum (x :: l)) with (x + Zsum l). lia.
Qed.

Lemma Data_report_peak ds ts now now2 mw :
  ResponseDuration (data.MaxResponseTime (fst (Data ds ts now now2 mw)))
  = ResponseDuration (MaxResponseTime mw).
Proof.
  unfold Data. destruct (SecondsToDate _) as [[[[w d] h] mi] se]. reflexivity.
Qed.

(** X16. When no elapsed duration is negative and the run records no more
    than [max_int] requests, the average response time of a report lies
    between zero and the peak duration of the same report. *)
Theorem average_at_most_peak
    (Duration_String Time_String : Z -> string) (now0 pid now now2 : Z)
    (evs : list event) :
  Forall (fun e => 0 <= e) (elapsed_of evs) ->
  Z.of_nat (recorded evs) <= GoInt.max_int ->
  let d := fst (Data Duration_String Time_String now now2 (run (New now0 pid) evs)) in
  exists avg,
    data.AverageResponseTime d = Duration_String avg
    /\ data.AverageResponseTimeSec d = GoTime.Seconds avg
    /\ 0 <= avg <= ResponseDuration (data.MaxResponseTime d).
Proof.
  intros Hpos HN d.
  destruct (Data_report Duration_String Time_String now now2 (run (New now0 pid) evs))
    as (_ & _ & _ & Ha & Has).
  fold d in Ha, Has.
  eexists. split; [exact Ha |]. split; [exact Has |].
  subst d. rewrite Data_report_peak.
  destruct (run_peak_bounds now0 pid evs) as [Hp0 Hub]. cbv zeta in Hp0, Hub.
  set (p := ResponseDuration (MaxResponseTime (run (New now0 pid) evs))) in *.
  assert (Hc : range_sum (TotalResponseCounts (run (New now0 pid) evs))
               = Z.of_nat (recorded evs)).
  { rewrite run_range_sum. change (range_sum (TotalResponseCounts (New now0 pid))) with 0.
    rewrite Z.add_0_l. apply wrap_of_nat, HN. }
  assert (Htt : TotalResponseTime (run (New now0 pid) evs) = Zsum (elapsed_of evs)).
  { rewrite run_total_time. reflexivity. }
  rewrite Hc, Htt.
  pose proof (Zsum_nonneg _ Hpos) as Hs0.
  pose proof (Zsum_le_bound _ p Hub) as Hsp. fold (recorded evs) in Hsp.
  set (total := GoTime.Sub (Zsum (elapsed_of evs)) GoTime.zero).
  assert (Ht : 0 <= total <= Zsum (elapsed_of evs)).
  { subst total. unfold GoTime.Sub, GoTime.zero, GoInt.min_int, GoInt.max_int. lia. }
  destruct (Z.of_nat (recorded evs)) as [|n|n] eqn:En; try lia.
  - unfold averageResponseTime. simpl. lia.
  - rewrite averageResponseTime_quot by (subst total; apply Sub_range || lia).
    clearbody total p. generalize dependent (Z.pos n). intros c Hc Hsp.
    Z.quot_rem_to_equations. nia.
Qed.

Lemma average_at_most_peak_witness :
  let evs := [EvEnd 10 10 0 200 "/a" "GET" "curl";
              EvEnd 70 70 20 200 "/a" "GET" "curl";
              EvEnd 85 85 80 404 "/b" "GET" "curl"] in
  let d := fst (Data (fun _ => "") (fun _ => "") 100 100 (run (New 0 1) evs)) in
  exists avg, data.AverageResponseTimeSec d = GoTime.Seconds avg
              /\ 0 <= avg <= 50.
Proof.
  intros evs d.
  destruct (average_at_most_peak (fun _ => "") (fun _ => "") 0 1 100 100 evs)
    as (avg & _ & Hs & Hb).
  - subst evs. simpl. repeat constructor; vm_compute; discriminate.
  - vm_compute. discriminate.
  - exists avg. split; [exact Hs |]. exact Hb.
Defined.

(** ** An export before any peak *)

(** X17. As long as the peak record still carries the zero [Time] that [New]
    gave it, [time.Since] saturates at the greatest [Duration] for every clock
    reading a real clock can give (from [max_int] nanoseconds after the zero
    [Time] on), and the report shows the peak as observed 15250 weeks, 1 day,
    23 hours, 47 minutes and 17 seconds ago. *)
Theorem time_since_peak_before_any_peak
    (Duration_String Time_String : Z -> string) (now now2 : Z) (mw : Stats) :
  ResponseTime (MaxResponseTime mw) = GoTime.zero ->
  GoInt.max_int <= now2 ->
  ResponseSince (data.MaxResponseTime
                   (fst (Data Duration_String Time_String now now2 mw)))
  = mkTimeSpan 15250 1 23 47 17.
Proof.
  intros Hz Hnow.
  assert (Hd : GoTime.Since now2 (ResponseTime (MaxResponseTime mw)) = GoInt.max_int).
  { rewrite Hz. unfold GoTime.Since, GoTime.Sub, GoTime.zero.
    unfold GoInt.max_int, GoInt.min_int in *. lia. }
  unfold Data. rewrite Hd.
  assert (Hs : SecondsToDate (Round (GoTime.Seconds GoInt.max_int) 0)
               = (15250, 1, 23, 47, 17)) by (vm_compute; reflexivity).
  rewrite Hs. reflexivity.
Qed.

Lemma time_since_peak_before_any_peak_witness :
  ResponseSince (data.MaxResponseTime
                   (fst (Data (fun _ => "") (fun _ => "")
                           (2 ^ 65) (2 ^ 65) (New (2 ^ 65 - 1000) 1))))
  = mkTimeSpan 15250 1 23 47 17.
Proof.
  exact (time_since_peak_before_any_peak (fun _ => "") (fun _ => "")
           (2 ^ 65) (2 ^ 65) (New (2 ^ 65 - 1000) 1)
           eq_refl ltac:(vm_compute; discriminate)).
Defined.

(** ** What one update leaves alone *)

(** X18. One update writes only under the keys of its own request: the
    entries of every other URL in the four per-URL maps, of every other status
    code in both status maps, and of every other method and user agent are
    what they were. *)
Theorem update_touches_only_its_keys
    (end_ now : Z) (mw : Stats) (start status : Z) (url method useragent : string) :
  let mw' := EndWithStatus end_ now mw start status url method useragent in
  (forall u, u <> url ->
     URLRequestCounts mw' !! u = URLRequestCounts mw !! u
     /\ URLRequestLatency mw' !! u = URLRequestLatency mw !! u
     /\ URLHighestResponse mw' !! u = URLHighestResponse mw !! u
     /\ URLLowestResponse mw' !! u = URLLowestResponse mw !! u)
  /\ (forall st, st <> status ->
        ResponseCounts mw' !! pretty st = ResponseCounts mw !! pretty st
        /\ TotalResponseCounts mw' !! pretty st = TotalResponseCounts mw !! pretty st)
  /\ (forall m, m <> method -> RequestTypeCounts mw' !! m = RequestTypeCounts mw !! m)
  /\ (forall a, a <> useragent -> UserAgentCounts mw' !! a = UserAgentCounts mw !! a).
Proof.
  intros mw'. subst mw'. repeat apply conj.
  - intros u Hne. repeat apply conj.
    + cbn [URLRequestCounts EndWithStatus]. unfold incr.
      apply lookup_insert_ne. congruence.
    + cbn [URLRequestLatency EndWithStatus]. unfold addto.
      apply lookup_insert_ne. congruence.
    + rewrite EndWithStatus_highest.
      destruct (F64.ltb _ _); [apply lookup_insert_ne; congruence | reflexivity].
    + rewrite EndWithStatus_lowest. cbv zeta.
      destruct (F64.eqb _ _); [apply lookup_insert_ne; congruence |].
      destruct (F64.ltb _ _); [apply lookup_insert_ne; congruence | reflexivity].
  - intros st Hne.
    assert (Hk : pretty status <> pretty st).
    { intros Heq. apply Hne. symmetry. exact (pretty_Z_inj _ _ Heq). }
    split.
    + cbn [ResponseCounts EndWithStatus]. unfold incr.
      apply lookup_insert_ne. exact Hk.
    + cbn [TotalResponseCounts EndWithStatus]. unfold incr.
      apply lookup_insert_ne. exact Hk.
  - intros m Hne. cbn [RequestTypeCounts EndWithStatus]. unfold incr.
    apply lookup_insert_ne. congruence.
  - intros a Hne. cbn [UserAgentCounts EndWithStatus]. unfold incr.
    apply lookup_insert_ne. congruence.
Qed.

Lemma update_touches_only_its_keys_witness :
  let mw := run (New 0 1) [EvEnd 10 10 5 200 "/a" "GET" "curl"] in
  let mw' := EndWithStatus 30 30 mw 20 404 "/b" "POST" "wget" in
  URLLowestResponse mw' !! "/a" = URLLowestResponse mw !! "/a"
  /\ TotalResponseCounts mw' !! pretty 200 = TotalResponseCounts mw !! pretty 200.
Proof.
  intros mw mw'.
  destruct (update_touches_only_its_keys 30 30 mw 20 404 "/b" "POST" "wget")
    as (Hu & Hs & _).
  split.
  - apply (Hu "/a"). discriminate.
  - apply (Hs 200). discriminate.
Defined.

(** ** Growth of the cumulative aggregates *)


